(** * Remote kernel picker (lib/ws-kernel-picker.ts)

    A shallow embedding of [WSKernelPicker] and [CustomListView]: the
    gateway chooser, the credential prompts, kernel-spec discovery and the
    session listing, together with the properties the design document
    states about them.

    The picker talks to collaborators that are not part of the file (the
    select list, the input view, the notification area, the Jupyter
    services client, the configuration).  Calls to them are recorded in a
    trace; what they answer is read from an environment [Env], so every
    theorem holds for every behaviour of the collaborators. *)

From Stdlib Require Import ZArith String List Bool Lia.
From stdpp Require Import base option list gmap strings.
Import ListNotations.

Local Open Scope string_scope.
Local Open Scope list_scope.

(** ** JavaScript truthiness of the values the picker tests *)

(** A string-valued property that may be missing: [undefined], [null] and
    the empty string are falsy. *)
Definition truthy (s : option string) : bool :=
  match s with
  | Some text => negb (text =? "")
  | None => false
  end.

(** [String.prototype.includes]: [needle] occurs somewhere in [s]. *)
Fixpoint includes (s needle : string) : bool :=
  String.prefix needle s
  || match s with
     | EmptyString => false
     | String _ rest => includes rest needle
     end.

(** ** Data exchanged with the Jupyter services client *)

(** The [xhr] object attached to a failed request. *)
Record XHR := mkXHR {
  responseText : option string;
  status : Z
}.

(** A value thrown by the client (or by the runtime: a [TypeError] carries
    no [xhr]). *)
Record Error := mkError { xhr : option XHR }.

Module Kernel.
Record ISpecModel := mkSpec {
  name : string;
  display_name : string;
  language : string
}.

(** [kernelspecs] is an object keyed by spec name; lodash iterates over
    its values in key order, which is the order of this list. *)
Record ISpecModels := mkSpecs {
  default : string;
  kernelspecs : list ISpecModel
}.

Record IModel := mkModel {
  id : string;
  model_name : string
}.
End Kernel.

Module Session.
Record Notebook := mkNotebook { notebook_path : option string }.

Record IModel := mkModel {
  id : string;
  path : option string;
  notebook : option Notebook;
  kernel : option Kernel.IModel
}.

(** A live session handle. *)
Record ISession := mkSession {
  model : IModel
}.
End Session.

(** ** WHATWG URL objects (node's [url] module) *)

Module URL.
Record t := mk {
  protocol : string;   (* with the trailing colon, as the getter gives it *)
  username : string;
  password : string;
  hostname : string;
  port : string;       (* empty when the port is the scheme's default *)
  pathname : string;
  search : string;
  hash : string
}.

Definition is_special (scheme : string) : bool :=
  bool_decide (scheme ∈ ["ftp:"; "file:"; "http:"; "https:"; "ws:"; "wss:"]).

Definition default_port (scheme : string) : string :=
  if scheme =? "ftp:" then "21"
  else if (scheme =? "http:") || (scheme =? "ws:") then "80"
  else if (scheme =? "https:") || (scheme =? "wss:") then "443"
  else "".

(** The [protocol] setter, for a [value] that is a well-formed scheme
    followed by a colon (the picker only assigns ["https:"] and
    ["http:"]).  The setter silently keeps the URL as it is when the
    change would move between a special and a non-special scheme, give
    a [file:] URL credentials or a port, or leave a [file:] URL with
    no host; otherwise the scheme is replaced and a port that is the new
    scheme's default is dropped. *)
Definition set_protocol (u : t) (value : string) : t :=
  if negb (Bool.eqb (is_special (protocol u)) (is_special value)) then u
  else if (value =? "file:")
          && (negb (username u =? "") || negb (password u =? "")
              || negb (port u =? "")) then u
  else if (protocol u =? "file:") && (hostname u =? "") then u
  else mk value (username u) (password u) (hostname u)
          (if port u =? default_port value then "" else port u)
          (pathname u) (search u) (hash u).

(** The [host] getter. *)
Definition host (u : t) : string :=
  if port u =? "" then hostname u else hostname u +:+ ":" +:+ port u.

(** The [origin] getter: a tuple origin for the network schemes, the
    opaque origin ["null"] for everything else. *)
Definition origin (u : t) : string :=
  if bool_decide (protocol u ∈ ["ftp:"; "http:"; "https:"; "ws:"; "wss:"])
  then protocol u +:+ "//" +:+ host u
  else "null".
End URL.

(** ** Connection options *)

(** The transport factories are closures; each closure the picker creates
    is one constructor here, and a factory that comes with the gateway's
    own options is an opaque tag. *)
Inductive XhrFactory :=
| DefaultXhr                      (* () => new NodeXMLHttpRequest() *)
| HeaderCheckDisabledXhr          (* installed by promptForCookie *)
| ConfiguredXhr (tag : string).

Inductive WsFactory :=
| DefaultWs                       (* (url, protocol) => new ws(url, protocol) *)
| SameOriginWs (cookie : string)  (* installed by promptForCookie *)
| ConfiguredWs (tag : string).

(** [KernelGatewayOptions]: every field is optional; [others] holds the
    fields the picker never names (wsUrl, withCredentials, ...). *)
Record KernelGatewayOptions := mkOptions {
  baseUrl : option string;
  token : option string;
  requestHeaders : option (gmap string string);
  xhrFactory : option XhrFactory;
  wsFactory : option WsFactory;
  others : gmap string string
}.

Record KernelGateway := mkGateway {
  gateway_name : string;
  gateway_options : KernelGatewayOptions
}.

(** [ServerConnection.makeSettings(options)] builds a fresh settings object
    from the options as they are at the time of the call; later changes to
    the options object do not reach it. *)
Record ServerSettings := mkSettings { settings_of : KernelGatewayOptions }.

Definition makeSettings (options : KernelGatewayOptions) : ServerSettings :=
  mkSettings options.

(** Object spread [{ ...defaults, ...overrides }], field by field. *)
Definition spread (defaults overrides : KernelGatewayOptions)
  : KernelGatewayOptions :=
  mkOptions
    (from_option Some (baseUrl defaults) (baseUrl overrides))
    (from_option Some (token defaults) (token overrides))
    (from_option Some (requestHeaders defaults) (requestHeaders overrides))
    (from_option Some (xhrFactory defaults) (xhrFactory overrides))
    (from_option Some (wsFactory defaults) (wsFactory overrides))
    (others overrides ∪ others defaults).

(** Assignments to single fields of an options object. *)
Definition with_token v o :=
  mkOptions (baseUrl o) v (requestHeaders o) (xhrFactory o) (wsFactory o)
    (others o).
Definition with_requestHeaders v o :=
  mkOptions (baseUrl o) (token o) v (xhrFactory o) (wsFactory o) (others o).
Definition with_xhrFactory v o :=
  mkOptions (baseUrl o) (token o) (requestHeaders o) v (wsFactory o)
    (others o).
Definition with_wsFactory v o :=
  mkOptions (baseUrl o) (token o) (requestHeaders o) (xhrFactory o) v
    (others o).

(** The argument the [ws] constructor is called with. *)
Record WebSocketCall := mkWs {
  ws_address : string;
  ws_protocols : list string;
  ws_headers : option (gmap string string);
  ws_origin : option string;
  ws_host : option string
}.

(** ** The chooser and what it displays *)

Definition Element := nat.
Definition Grammar := string.

(** Options of [Session.startNew]. *)
Record StartOptions := mkStart {
  start_serverSettings : ServerSettings;
  start_kernelName : string;
  start_path : option string
}.

(** An entry of the session list: [SessionInfoWithModel] when [info_model]
    is present, [SessionInfoWithoutModel] otherwise. *)
Record SessionInfo := mkInfo {
  info_name : option string;
  info_model : option Session.IModel;
  info_options : ServerSettings;
  info_kernelSpecs : option (list Kernel.ISpecModel)
}.

(** The items handed to the select list ([SelectListItem] is [any]). *)
Inductive Item :=
| GatewayItem (gateway : KernelGateway)
| CredentialItem (name action : string)
| SessionItem (info : SessionInfo)
| KernelSpecItem (name : string) (options : StartOptions).

(** A message property of [selectListView.update]: the key can be left
    out, be [null], or hold a text. *)
Inductive Message := Absent | Null | Text (text : string).

Record UpdateProps := mkProps {
  items : option (list Item);
  infoMessage : Message;
  loadingMessage : Message;
  emptyMessage : Message;
  errorMessage : Message
}.

(** The functions stored in [listView.onConfirmed] / [onCancelled]. *)
Inductive ConfirmHandler :=
| NoConfirm                                (* null *)
| OnGateway                                (* this.onGateway.bind(this) *)
| OnSession (gatewayName : string)         (* this.onSession.bind(this, name) *)
| StartSession (gatewayName : string)      (* this.startSession.bind(this, name) *)
| ResolveAction.                           (* (item) => resolve(item.action) *)

Inductive CancelHandler :=
| NoCancel                                 (* null *)
| ResolveCancel.                           (* () => resolve("cancel") *)

(** [new WSKernel(gatewayName, kernelSpec, grammar, session)]. *)
Record WSKernel := mkKernel {
  gatewayName : string;
  kernelSpec : Kernel.ISpecModel;
  grammar : Grammar;
  session : Session.ISession
}.

(** ** Calls to the collaborators, in the order they are made *)

Inductive Event :=
| AddError (title : string) (description : option string)
    (* atom.notifications.addError *)
| Update (props : UpdateProps)       (* selectListView.update *)
| AddModalPanel                      (* atom.workspace.addModalPanel *)
| PanelShow                          (* panel.show *)
| ListFocus                          (* selectListView.focus *)
| PanelDestroy                       (* panel.destroy *)
| ElementFocus (element : Element)   (* previouslyFocusedElement.focus *)
| AwaitChoice                        (* wait for the credential choice *)
| InputAttach (prompt : string)      (* new InputView(...).attach *)
| GetSpecs (settings : ServerSettings)          (* Kernel.getSpecs *)
| ListRunning (settings : ServerSettings)       (* Session.listRunning *)
| ConnectTo (id : string) (settings : ServerSettings)   (* Session.connectTo *)
| StartNew (options : StartOptions)             (* Session.startNew *)
| GetSpec (session : Session.ISession)          (* session.kernel.getSpec *)
| Chosen (kernel : WSKernel).                   (* this._onChosen *)

(** ** What the collaborators answer *)

(** What the user does with the credential chooser: confirm one of its three
    items, or dismiss the list. *)
Inductive Choice := ConfirmToken | ConfirmCookie | ConfirmCancel | Dismiss.

(** What the user does with an input view. *)
Inductive Input := Submit (text : string) | CancelInput.

(** Answers are indexed by how many calls of the same kind came before, so
    that a retried request may be answered differently from the first. *)
Record Env := mkEnv {
  Config_gateways : option (list KernelGateway);   (* Config.getJson("gateways") *)
  store_filePath : option string;
  store_grammar : option Grammar;
  v4 : nat -> string;
  tildify : string -> string;
  (* utils.setPreviouslyFocusedElement, as a function of the field it sets *)
  focusProbe : option Element -> option Element;
  URL_parse : string -> option URL.t;              (* None: new URL throws *)
  Kernel_getSpecs : nat -> ServerSettings -> Error + Kernel.ISpecModels;
  Session_listRunning : nat -> ServerSettings -> Error + list Session.IModel;
  Session_connectTo : string -> ServerSettings -> Error + Session.ISession;
  Session_startNew : StartOptions -> Error + Session.ISession;
  kernel_getSpec : Session.ISession -> Error + Kernel.ISpecModel;
  user_choice : nat -> Choice;
  user_input : nat -> string -> Input
}.

(** ** The picker's state *)

Record Calls := mkCalls {
  getSpecs_calls : nat;
  listRunning_calls : nat;
  choice_calls : nat;
  input_calls : nat;
  v4_calls : nat
}.

Record State := mkState {
  (* WSKernelPicker *)
  _kernelSpecFilter : option (Kernel.ISpecModel -> bool);
  _path : option string;
  (* CustomListView *)
  onConfirmed : ConfirmHandler;
  onCancelled : CancelHandler;
  previouslyFocusedElement : option Element;
  panel : bool;                       (* a modal panel exists *)
  (* the options object of the resolution in progress; the prompts receive
     a reference to it and change it in place *)
  gatewayOptions : KernelGatewayOptions;
  calls : Calls;
  trace : list Event
}.


(** A picker right after [new WSKernelPicker(onChosen)]: the list view's
    constructor has recorded the focused element, nothing else has happened.
    No options object exists yet; the cell holds an empty one. *)
Definition constructed (env : Env) : State :=
  mkState None None NoConfirm NoCancel (focusProbe env None) false
    (mkOptions None None None None None ∅)
    (mkCalls 0 0 0 0 0) [].

(** ** A state and exception monad *)

Inductive Completion (A : Type) :=
| Normal (value : A)
| Thrown (error : Error).
Arguments Normal {A} value.
Arguments Thrown {A} error.

Definition M (A : Type) : Type := State -> Completion A * State.

Definition ret {A} (a : A) : M A := fun st => (Normal a, st).

Definition bind {A B} (m : M A) (k : A -> M B) : M B :=
  fun st =>
    match m st with
    | (Normal a, st') => k a st'
    | (Thrown e, st') => (Thrown e, st')
    end.

Definition throw {A} (e : Error) : M A := fun st => (Thrown e, st).

(** [try { body } catch (error) { handler }] *)
Definition try_catch {A} (body : M A) (handler : Error -> M A) : M A :=
  fun st =>
    match body st with
    | (Normal a, st') => (Normal a, st')
    | (Thrown e, st') => handler e st'
    end.

Definition gets {A} (f : State -> A) : M A := fun st => (Normal (f st), st).
Definition modify (f : State -> State) : M unit := fun st => (Normal tt, f st).

Notation "'do' x <- m ; k" := (bind m (fun x => k))
  (at level 10, x name, m at level 100, k at level 200).
Notation "'run' m ; k" := (bind m (fun _ => k))
  (at level 10, m at level 100, k at level 200).

(** Field updates. *)
Definition with_filter f st :=
  mkState f (_path st) (onConfirmed st) (onCancelled st)
    (previouslyFocusedElement st) (panel st) (gatewayOptions st) (calls st)
    (trace st).
Definition with_path p st :=
  mkState (_kernelSpecFilter st) p (onConfirmed st) (onCancelled st)
    (previouslyFocusedElement st) (panel st) (gatewayOptions st) (calls st)
    (trace st).
Definition with_onConfirmed h st :=
  mkState (_kernelSpecFilter st) (_path st) h (onCancelled st)
    (previouslyFocusedElement st) (panel st) (gatewayOptions st) (calls st)
    (trace st).
Definition with_onCancelled h st :=
  mkState (_kernelSpecFilter st) (_path st) (onConfirmed st) h
    (previouslyFocusedElement st) (panel st) (gatewayOptions st) (calls st)
    (trace st).
Definition with_focused e st :=
  mkState (_kernelSpecFilter st) (_path st) (onConfirmed st) (onCancelled st)
    e (panel st) (gatewayOptions st) (calls st) (trace st).
Definition with_panel b st :=
  mkState (_kernelSpecFilter st) (_path st) (onConfirmed st) (onCancelled st)
    (previouslyFocusedElement st) b (gatewayOptions st) (calls st) (trace st).
Definition with_options o st :=
  mkState (_kernelSpecFilter st) (_path st) (onConfirmed st) (onCancelled st)
    (previouslyFocusedElement st) (panel st) o (calls st) (trace st).
Definition with_calls c st :=
  mkState (_kernelSpecFilter st) (_path st) (onConfirmed st) (onCancelled st)
    (previouslyFocusedElement st) (panel st) (gatewayOptions st) c (trace st).
Definition with_trace t st :=
  mkState (_kernelSpecFilter st) (_path st) (onConfirmed st) (onCancelled st)
    (previouslyFocusedElement st) (panel st) (gatewayOptions st) (calls st) t.

(** Record a call. *)
Definition emit (e : Event) : M unit :=
  modify (fun st => with_trace (trace st ++ [e]) st).

Definition bump_getSpecs c :=
  mkCalls (S (getSpecs_calls c)) (listRunning_calls c) (choice_calls c)
    (input_calls c) (v4_calls c).
Definition bump_listRunning c :=
  mkCalls (getSpecs_calls c) (S (listRunning_calls c)) (choice_calls c)
    (input_calls c) (v4_calls c).
Definition bump_choice c :=
  mkCalls (getSpecs_calls c) (listRunning_calls c) (S (choice_calls c))
    (input_calls c) (v4_calls c).
Definition bump_input c :=
  mkCalls (getSpecs_calls c) (listRunning_calls c) (choice_calls c)
    (S (input_calls c)) (v4_calls c).
Definition bump_v4 c :=
  mkCalls (getSpecs_calls c) (listRunning_calls c) (choice_calls c)
    (input_calls c) (S (v4_calls c)).

(** The result of an awaited client call: the value, or the rejection
    thrown at the [await]. *)
Definition settle {A} (r : Error + A) : M A :=
  match r with
  | inl e => throw e
  | inr a => ret a
  end.

(** ** The picker *)

Section Picker.
Variable env : Env.

(** *** Calls to the collaborators *)

Definition Kernel_getSpecs_call (serverSettings : ServerSettings)
  : M Kernel.ISpecModels :=
  do n <- gets (fun st => getSpecs_calls (calls st));
  run emit (GetSpecs serverSettings);
  run modify (fun st => with_calls (bump_getSpecs (calls st)) st);
  settle (Kernel_getSpecs env n serverSettings).

Definition Session_listRunning_call (serverSettings : ServerSettings)
  : M (list Session.IModel) :=
  do n <- gets (fun st => listRunning_calls (calls st));
  run emit (ListRunning serverSettings);
  run modify (fun st => with_calls (bump_listRunning (calls st)) st);
  settle (Session_listRunning env n serverSettings).

Definition Session_connectTo_call (id : string) (options : ServerSettings)
  : M Session.ISession :=
  run emit (ConnectTo id options);
  settle (Session_connectTo env id options).

Definition Session_startNew_call (options : StartOptions)
  : M Session.ISession :=
  run emit (StartNew options);
  settle (Session_startNew env options).

Definition kernel_getSpec_call (session : Session.ISession)
  : M Kernel.ISpecModel :=
  run emit (GetSpec session);
  settle (kernel_getSpec env session).

Definition v4_call : M string :=
  do n <- gets (fun st => v4_calls (calls st));
  run modify (fun st => with_calls (bump_v4 (calls st)) st);
  ret (v4 env n).

(** The input view is attached and the promise settles with what the
    user does: [resolve(text)] or [reject()]. *)
Definition inputPromise (prompt : string) : M Input :=
  do n <- gets (fun st => input_calls (calls st));
  run emit (InputAttach prompt);
  run modify (fun st => with_calls (bump_input (calls st)) st);
  ret (user_input env n prompt).

(** *** CustomListView *)

Definition listView_show : M unit :=
  do p <- gets panel;
  run (if p then ret tt
       else run emit AddModalPanel; modify (with_panel true));
  run emit PanelShow;
  emit ListFocus.

Definition listView_cancel : M unit :=
  do p <- gets panel;
  run (if p then emit PanelDestroy else ret tt);
  run modify (with_panel false);
  do focused <- gets previouslyFocusedElement;
  match focused with
  | Some element =>
      run emit (ElementFocus element);
      modify (with_focused None)
  | None => ret tt
  end.

(** *** WSKernelPicker.toggle *)

Definition toggle (filter : Kernel.ISpecModel -> bool) : M unit :=
  run modify (fun st =>
        with_focused (focusProbe env (previouslyFocusedElement st)) st);
  run modify (with_filter (Some filter));
  let gateways := default [] (Config_gateways env) in
  if bool_decide (gateways = []) then
    emit (AddError "No remote kernel gateways available"
            (Some "Use the Hydrogen package settings to specify the list of remote servers. Hydrogen can use remote kernels on either a Jupyter Kernel Gateway or Jupyter notebook server."))
  else
    do uuid <- v4_call;
    let file :=
      if truthy (store_filePath env)
      then default "" (store_filePath env) else "unsaved" in
    run modify (with_path (Some (file +:+ "-" +:+ uuid)));
    run modify (with_onConfirmed OnGateway);
    run emit (Update (mkProps (Some (map GatewayItem gateways))
                        (Text "Select a gateway") Null
                        (Text "No gateways available") Absent));
    listView_show.

(** *** WSKernelPicker.promptForText *)

Definition promptForText (prompt : string) : M (option string) :=
  do previouslyFocused <- gets previouslyFocusedElement;
  run listView_cancel;
  do response <- inputPromise prompt;
  match response with
  | CancelInput => ret None
  | Submit text =>
      if text =? "" then ret None
      else
        run listView_show;
        run modify (with_focused previouslyFocused);
        ret (Some text)
  end.

(** Assignment through the [options] reference the prompts receive. *)
Definition assign (f : KernelGatewayOptions -> KernelGatewayOptions)
  : M unit :=
  modify (fun st => with_options (f (gatewayOptions st)) st).

(** *** WSKernelPicker.promptForCookie *)

(** The scheme rewriting inside the [wsFactory] closure. *)
Definition sameOrigin (parsedUrl : URL.t) : URL.t :=
  if URL.protocol parsedUrl =? "wss:"
  then URL.set_protocol parsedUrl "https:"
  else URL.set_protocol parsedUrl "http:".

(** Calling a transport factory of this file; [None] for a factory the
    picker did not create.  [new URL(url)] throws a [TypeError] on a
    string that is not a URL. *)
Definition call_wsFactory (factory : WsFactory)
    (url : string) (protocol : list string)
  : option (Completion WebSocketCall) :=
  match factory with
  | DefaultWs => Some (Normal (mkWs url protocol None None None))
  | SameOriginWs cookie =>
      Some
        match URL_parse env url with
        | None => Thrown (mkError None)
        | Some parsedUrl =>
            let parsedUrl := sameOrigin parsedUrl in
            let headers : gmap string string := {["Cookie" := cookie]} in
            let origin := URL.origin parsedUrl in
            let host := URL.host parsedUrl in
            Normal (mkWs url protocol (Some headers) (Some origin)
                      (Some host))
        end
  | ConfiguredWs _ => None
  end.

Definition promptForCookie : M bool :=
  do cookie <- promptForText "Cookie:";
  match cookie with
  | None => ret false
  | Some cookie =>
      run assign (fun options =>
            match requestHeaders options with
            | None => with_requestHeaders (Some ∅) options
            | Some _ => options
            end);
      run assign (fun options =>
            with_requestHeaders
              (<["Cookie" := cookie]> <$> requestHeaders options) options);
      run assign (with_xhrFactory (Some HeaderCheckDisabledXhr));
      run assign (with_wsFactory (Some (SameOriginWs cookie)));
      ret true
  end.

(** *** WSKernelPicker.promptForToken *)

Definition promptForToken : M bool :=
  do token <- promptForText "Token:";
  match token with
  | None => ret false
  | Some token =>
      run assign (with_token (Some token));
      ret true
  end.

(** *** WSKernelPicker.promptForCredentials *)

Definition credentialItems : list Item :=
  [ CredentialItem "Authenticate with a token" "token";
    CredentialItem "Authenticate with a cookie" "cookie";
    CredentialItem "Cancel" "cancel" ].

(** The promise that settles with the action of the confirmed item, or
    with ["cancel"] when the list is dismissed ([didCancelSelection]
    first runs the list view's own [cancel]). *)
Definition actionPromise : M string :=
  run modify (with_onConfirmed ResolveAction);
  run modify (with_onCancelled ResolveCancel);
  do n <- gets (fun st => choice_calls (calls st));
  run emit AwaitChoice;
  run modify (fun st => with_calls (bump_choice (calls st)) st);
  match user_choice env n with
  | ConfirmToken => ret "token"
  | ConfirmCookie => ret "cookie"
  | ConfirmCancel => ret "cancel"
  | Dismiss => run listView_cancel; ret "cancel"
  end.

Definition credentialChoices : UpdateProps :=
  mkProps (Some credentialItems)
    (Text "Connection to gateway failed. Your settings may be incorrect, the server may be unavailable, or you may lack sufficient privileges to complete the connection.")
    Null Null Absent.

Definition promptForCredentials : M bool :=
  run emit (Update credentialChoices);
  do action <- actionPromise;
  if action =? "token" then promptForToken
  else if action =? "cookie" then promptForCookie
  else
    run listView_cancel;
    ret false.

(** *** Completing a session *)

Definition onSessionChosen (gatewayName : string)
    (session : Session.ISession) : M unit :=
  run listView_cancel;
  do kernelSpec <- kernel_getSpec_call session;
  match store_grammar env with
  | None => ret tt
  | Some grammar =>
      emit (Chosen (mkKernel gatewayName kernelSpec grammar session))
  end.

Definition startSession (gatewayName : string) (options : StartOptions)
  : M unit :=
  do session <- Session_startNew_call options;
  onSessionChosen gatewayName session.

Definition onSessionWithModel (gatewayName : string)
    (model : Session.IModel) (options : ServerSettings) : M unit :=
  do session <- Session_connectTo_call (Session.id model) options;
  onSessionChosen gatewayName session.

Definition onSessionWitouthModel (gatewayName : string)
    (sessionInfo : SessionInfo) : M unit :=
  run (if truthy (info_name sessionInfo) then ret tt
       else emit (Update (mkProps (Some [])
                            Null Null Absent
                            (Text "This gateway does not support listing sessions"))));
  do path <- gets _path;
  let items :=
    map (fun spec =>
           let options :=
             mkStart (info_options sessionInfo) (Kernel.name spec) path in
           KernelSpecItem (Kernel.display_name spec) options)
        (default [] (info_kernelSpecs sessionInfo)) in
  run modify (with_onConfirmed (StartSession gatewayName));
  emit (Update (mkProps (Some items) (Text "Select a session") Null
                  (Text "No kernel specs available") Absent)).

Definition onSession (gatewayName : string) (sessionInfo : SessionInfo)
  : M unit :=
  match info_model sessionInfo with
  | None => onSessionWitouthModel gatewayName sessionInfo
  | Some model =>
      onSessionWithModel gatewayName model (info_options sessionInfo)
  end.

(** *** WSKernelPicker.onGateway *)

Definition loadingSessions : UpdateProps :=
  mkProps (Some []) Null (Text "Loading sessions...")
    (Text "No sessions available") Absent.

(** [_.filter(specModels.kernelspecs, (spec) => this._kernelSpecFilter(spec))]:
    calling a filter that was never set throws a [TypeError], which can
    only happen when there is a spec to call it on. *)
Definition filterSpecs (specs : list Kernel.ISpecModel)
  : M (list Kernel.ISpecModel) :=
  do kernelSpecFilter <- gets _kernelSpecFilter;
  match kernelSpecFilter with
  | Some keep => ret (filter (λ spec, keep spec) specs)
  | None =>
      match specs with
      | [] => ret []
      | _ :: _ => throw (mkError None)
      end
  end.

(** The predicate of [sessionModels.filter]. *)
Definition keepsSession (kernelNames : list string)
    (model : Session.IModel) : bool :=
  let name := Kernel.model_name <$> Session.kernel model in
  if truthy name
  then bool_decide (default "" name ∈ kernelNames)
  else true.

(** The function of [sessionModels.map]. *)
Definition sessionItem (serverSettings : ServerSettings)
    (model : Session.IModel) : Item :=
  let name :=
    if truthy (Session.path model)
    then tildify env (default "" (Session.path model))
    else if truthy (Session.notebook model ≫= Session.notebook_path)
    then tildify env
           (default "" (Session.notebook model ≫= Session.notebook_path))
    else "Session " +:+ Session.id model in
  SessionItem (mkInfo (Some name) (Some model) serverSettings None).

Definition newSession (serverSettings : ServerSettings)
    (kernelSpecs : list Kernel.ISpecModel) : SessionInfo :=
  mkInfo (Some "[new session]") None serverSettings (Some kernelSpecs).

(** The inner [try]/[catch] of the second block (lines 338-385): list the
    running sessions and offer them, or go on to a new session when the
    gateway refuses to list them. *)
Definition listSessions (gatewayInfo : KernelGateway)
    (serverSettings : ServerSettings)
    (kernelSpecs : list Kernel.ISpecModel) : M unit :=
  let kernelNames := map Kernel.name kernelSpecs in
  try_catch
    (do sessionModels <- Session_listRunning_call serverSettings;
     let sessionModels :=
       filter (λ model, keepsSession kernelNames model) sessionModels in
     let items := map (sessionItem serverSettings) sessionModels in
     let items :=
       SessionItem (newSession serverSettings kernelSpecs) :: items in
     run modify (with_onConfirmed (OnSession (gateway_name gatewayInfo)));
     emit (Update (mkProps (Some items) Absent Null Absent Absent)))
    (fun error =>
       match xhr error with
       | None => throw error
       | Some xhr =>
           if negb (status xhr =? 403)%Z then throw error
           else
             onSession (gateway_name gatewayInfo)
               (newSession serverSettings kernelSpecs)
       end).

(** The second [try]/[catch] of [onGateway] (lines 327-389). *)
Definition resolveSessions (gatewayInfo : KernelGateway)
    (serverSettings : ServerSettings)
    (specModels : option Kernel.ISpecModels) : M unit :=
  try_catch
    (do specModels <-
       match specModels with
       | Some specModels => ret specModels
       | None => Kernel_getSpecs_call serverSettings
       end;
     do kernelSpecs <- filterSpecs (Kernel.kernelspecs specModels);
     listSessions gatewayInfo serverSettings kernelSpecs)
    (fun e =>
       run emit (AddError "Connection to gateway failed" None);
       listView_cancel).

(** How the first [try] block ends: with settings (and perhaps the spec
    models) for the second block, or with a [return] out of [onGateway]. *)
Inductive Discovery :=
| Proceed (serverSettings : ServerSettings)
    (specModels : option Kernel.ISpecModels)
| Return.

(** The [catch] of the first block (lines 299-325). *)
Definition onDiscoveryError (error : Error) : M Discovery :=
  match xhr error with
  | None => throw error
  | Some xhr =>
      if negb (truthy (responseText xhr)) then throw error
      else if includes (default "" (responseText xhr)) "ETIMEDOUT"
      then
        run emit (AddError "Connection to gateway failed" None);
        run listView_cancel;
        ret Return
      else
        do promptSucceeded <- promptForCredentials;
        if negb promptSucceeded then ret Return
        else
          do options <- gets gatewayOptions;
          let serverSettings := makeSettings options in
          run emit (Update loadingSessions);
          ret (Proceed serverSettings None)
  end.

(** The options [onGateway] starts from. *)
Definition seedOptions (gatewayInfo : KernelGateway)
  : KernelGatewayOptions :=
  spread (mkOptions None None None (Some DefaultXhr) (Some DefaultWs) ∅)
         (gateway_options gatewayInfo).

Definition onGateway (gatewayInfo : KernelGateway) : M unit :=
  run modify (with_onConfirmed NoConfirm);
  run emit (Update loadingSessions);
  run modify (with_options (seedOptions gatewayInfo));
  do options <- gets gatewayOptions;
  let serverSettings := makeSettings options in
  do discovery <-
    try_catch
      (do specModels <- Kernel_getSpecs_call serverSettings;
       ret (Proceed serverSettings (Some specModels)))
      onDiscoveryError;
  match discovery with
  | Return => ret tt
  | Proceed serverSettings specModels =>
      resolveSessions gatewayInfo serverSettings specModels
  end.
End Picker.

(** ** Reading a trace *)

(** The settings of the [Kernel.getSpecs] calls, in order. *)
Definition discoveries (t : list Event) : list ServerSettings :=
  omap (λ e, match e with GetSpecs s => Some s | _ => None end) t.

(** The settings of the [Session.listRunning] calls. *)
Definition listings (t : list Event) : list ServerSettings :=
  omap (λ e, match e with ListRunning s => Some s | _ => None end) t.

(** The titles of the errors shown to the user. *)
Definition reports (t : list Event) : list string :=
  omap (λ e, match e with AddError title _ => Some title | _ => None end) t.

(** The number of credential choices the user was asked to make: one per
    negotiation round. *)
Definition rounds (t : list Event) : nat :=
  length (omap (λ e, match e with AwaitChoice => Some tt | _ => None end) t).

(** The item sets handed to the select list. *)
Definition updates (t : list Event) : list UpdateProps :=
  omap (λ e, match e with Update props => Some props | _ => None end) t.

(** The kernels handed to [onChosen]. *)
Definition emitted (t : list Event) : list WSKernel :=
  omap (λ e, match e with Chosen k => Some k | _ => None end) t.

(** What [listView.cancel] does to the panel and the focus in a state. *)
Definition cancel_events (st : State) : list Event :=
  (if panel st then [PanelDestroy] else [])
  ++ match previouslyFocusedElement st with
     | Some element => [ElementFocus element]
     | None => []
     end.

(** The state [listView.cancel] leaves. *)
Definition cancelled (st : State) : State :=
  with_focused None
    (with_panel false (with_trace (trace st ++ cancel_events st) st)).

(** What [listView.show] does in a state, and the state it leaves. *)
Definition show_events (st : State) : list Event :=
  (if panel st then [] else [AddModalPanel]) ++ [PanelShow; ListFocus].

Definition shown (st : State) : State :=
  with_panel true (with_trace (trace st ++ show_events st) st).

(** The state after an input view was attached and answered. *)
Definition asked (prompt : string) (st : State) : State :=
  with_calls (bump_input (calls st))
    (with_trace (trace st ++ [InputAttach prompt]) st).

(** ** Kinds of failure, in the words of the design document *)

(** The structured payload of a failure: the response text of its response
    object, when there is one and it is not empty. *)
Definition payload (error : Error) : option string :=
  x ← xhr error;
  text ← responseText x;
  if decide (text = "") then None else Some text.

(** The payload carries the timeout indicator. *)
Definition timeout_indicator (text : string) : Prop :=
  ∃ before after, text = before +:+ "ETIMEDOUT" +:+ after.

Definition unstructured (error : Error) : Prop := payload error = None.

Definition timed_out (error : Error) : Prop :=
  ∃ text, payload error = Some text ∧ timeout_indicator text.

Definition ambiguous (error : Error) : Prop :=
  ∃ text, payload error = Some text ∧ ¬ timeout_indicator text.

(** The failure carries the permission-denied status. *)
Definition forbidden (error : Error) : Prop :=
  ∃ x, xhr error = Some x ∧ status x = 403%Z.

(** The kernel name a session can be identified by, if any. *)
Definition identifiable_kernel (model : Session.IModel) : option string :=
  k ← Session.kernel model;
  if decide (Kernel.model_name k = "") then None
  else Some (Kernel.model_name k).

(** A session is offered when its kernel is among the permitted names, or
    when it has no identifiable kernel name. *)
Definition offered (kernelNames : list string) (model : Session.IModel)
  : Prop :=
  match identifiable_kernel model with
  | Some n => n ∈ kernelNames
  | None => True
  end.

Global Instance offered_dec kernelNames model
  : Decision (offered kernelNames model).
Proof. unfold offered. destruct (identifiable_kernel model); apply _. Defined.

(** The fields of an options object that hold a value. *)
Definition present {A} (field : string) (value : option A) : gset string :=
  match value with
  | Some _ => {[field]}
  | None => ∅
  end.

Definition fields (o : KernelGatewayOptions) : gset string :=
  present "baseUrl" (baseUrl o)
  ∪ present "token" (token o)
  ∪ present "requestHeaders" (requestHeaders o)
  ∪ present "xhrFactory" (xhrFactory o)
  ∪ present "wsFactory" (wsFactory o)
  ∪ dom (others o).

(** The request headers an options object sends. *)
Definition headers (o : KernelGatewayOptions) : gmap string string :=
  default ∅ (requestHeaders o).

(** ** What the credential strategies do to the options *)

(** The token strategy, by what the user answers to the prompt. *)
Definition token_applied (answer : Input) (o : KernelGatewayOptions)
  : KernelGatewayOptions :=
  match answer with
  | Submit text => if text =? "" then o else with_token (Some text) o
  | CancelInput => o
  end.

(** The cookie strategy for a cookie that was typed in. *)
Definition with_cookie (cookie : string) (o : KernelGatewayOptions)
  : KernelGatewayOptions :=
  with_wsFactory (Some (SameOriginWs cookie))
    (with_xhrFactory (Some HeaderCheckDisabledXhr)
       (with_requestHeaders (Some (<["Cookie" := cookie]> (headers o))) o)).

Definition cookie_applied (answer : Input) (o : KernelGatewayOptions)
  : KernelGatewayOptions :=
  match answer with
  | Submit text => if text =? "" then o else with_cookie text o
  | CancelInput => o
  end.

(** The prompt was answered with a text. *)
Definition answered (answer : Input) : bool :=
  match answer with
  | Submit text => negb (text =? "")
  | CancelInput => false
  end.

(** The state in which a prompt that was answered with [answer] ends. *)
Definition prompted (prompt : string) (answer : Input) (st : State) : State :=
  let st1 := asked prompt (cancelled st) in
  if answered answer
  then with_focused (previouslyFocusedElement st) (shown st1)
  else st1.

(** The state in which the credential choice is awaited. *)
Definition awaiting (st : State) : State :=
  with_calls (bump_choice (calls st))
    (with_trace (trace st ++ [Update credentialChoices; AwaitChoice])
       (with_onCancelled ResolveCancel (with_onConfirmed ResolveAction st))).

(** ** The stages of [onGateway] *)

(** The state in which the first discovery call is answered. *)
Definition discovering (gatewayInfo : KernelGateway) (st : State) : State :=
  with_calls (bump_getSpecs (calls st))
    (with_trace
       (trace st ++ [Update loadingSessions;
                     GetSpecs (makeSettings (seedOptions gatewayInfo))])
       (with_options (seedOptions gatewayInfo)
          (with_onConfirmed NoConfirm st))).

(** The state after a failure was reported and the list closed. *)
Definition failed (st : State) : State :=
  cancelled
    (with_trace (trace st ++ [AddError "Connection to gateway failed" None])
       st).

(** The state in which a retried discovery call is answered. *)
Definition rediscovering (serverSettings : ServerSettings) (st : State)
  : State :=
  with_calls (bump_getSpecs (calls st))
    (with_trace (trace st ++ [GetSpecs serverSettings]) st).

(** The state in which the listing call is answered. *)
Definition listing (serverSettings : ServerSettings) (st : State) : State :=
  with_calls (bump_listRunning (calls st))
    (with_trace (trace st ++ [ListRunning serverSettings]) st).

(** The item set of the new-session branch: one entry per kernel spec. *)
Definition kernelChoices (serverSettings : ServerSettings)
    (path : option string) (kernelSpecs : list Kernel.ISpecModel)
  : UpdateProps :=
  mkProps
    (Some (map (λ spec,
                  KernelSpecItem (Kernel.display_name spec)
                    (mkStart serverSettings (Kernel.name spec) path))
               kernelSpecs))
    (Text "Select a session") Null (Text "No kernel specs available") Absent.

(** The spec models the second block works with: the ones it was handed,
    or the answer to the discovery call it makes itself. *)
Definition specsFor (env : Env) (st : State) (serverSettings : ServerSettings)
    (specModels : option Kernel.ISpecModels) : Error + Kernel.ISpecModels :=
  match specModels with
  | Some specModels => inr specModels
  | None =>
      Kernel_getSpecs env (getSpecs_calls (calls st)) serverSettings
  end.

(** The state in which the second block has its spec models. *)
Definition resolving (serverSettings : ServerSettings)
    (specModels : option Kernel.ISpecModels) (st : State) : State :=
  match specModels with
  | Some _ => st
  | None => rediscovering serverSettings st
  end.

(** The item set of the session list: the new-session entry, then one entry
    per session that is offered. *)
Definition sessionChoices (env : Env) (serverSettings : ServerSettings)
    (kernelSpecs : list Kernel.ISpecModel)
    (sessionModels : list Session.IModel) : UpdateProps :=
  mkProps
    (Some (SessionItem (newSession serverSettings kernelSpecs)
           :: map (sessionItem env serverSettings)
                (filter (offered (map Kernel.name kernelSpecs))
                   sessionModels)))
    Absent Null Absent Absent.

(** A state with one more call recorded and a new confirmation handler. *)
Definition presenting (props : UpdateProps) (handler : ConfirmHandler)
    (st : State) : State :=
  with_trace (trace st ++ [Update props]) (with_onConfirmed handler st).

(** ** What an operation may do to the state *)

(** Every run of [m] relates the state it starts in to the state it ends
    in, whether it returns or throws. *)
Definition respects (R : State → State → Prop) {A} (m : M A) : Prop :=
  ∀ st, R st (snd (m st)).

(** The calls recorded between two states all satisfy [P]. *)
Definition adds (P : Event → Prop) (st st' : State) : Prop :=
  ∃ evs, trace st' = trace st ++ evs ∧ Forall P evs.

(** The modal panels created and destroyed so far. *)
Definition created (t : list Event) : nat :=
  length (omap (λ e, match e with AddModalPanel => Some tt | _ => None end) t).

Definition destroyed (t : list Event) : nat :=
  length (omap (λ e, match e with PanelDestroy => Some tt | _ => None end) t).

(** The [panel] field tells whether a created panel is still there. *)
Definition balanced (st : State) : Prop :=
  created (trace st) = destroyed (trace st) + (if panel st then 1 else 0).

Definition keeps_balance (st st' : State) : Prop :=
  balanced st → balanced st'.

(** A part of the state is left as it was. *)
Definition unchanged {A} (part : State → A) (st st' : State) : Prop :=
  part st' = part st.

(** The calls of browsing a gateway: no session is attached or started, no
    kernel is handed over, and no update carries an error message. *)
Definition browsing (e : Event) : Prop :=
  match e with
  | ConnectTo _ _ | StartNew _ | GetSpec _ | Chosen _ => False
  | Update props => errorMessage props = Absent
  | _ => True
  end.

(** The sessions attached to and the sessions started. *)
Definition connections (t : list Event) : list (string * ServerSettings) :=
  omap (λ e, match e with ConnectTo id s => Some (id, s) | _ => None end) t.

Definition starts (t : list Event) : list StartOptions :=
  omap (λ e, match e with StartNew o => Some o | _ => None end) t.

(** A property of the state, once it holds, holds afterwards. *)
Definition keeps (I : State → Prop) (st st' : State) : Prop := I st → I st'.

(** The confirmation handler left behind confirms nothing, or resolves a
    pending credential choice, or confirms a session of the given gateway. *)
Definition bound_to (gatewayName : string) (st : State) : Prop :=
  match onConfirmed st with
  | NoConfirm | ResolveAction => True
  | OnSession name | StartSession name => name = gatewayName
  | OnGateway => False
  end.

(** A call to the gateway that is made with the given settings. *)
Definition uses (serverSettings : ServerSettings) (e : Event) : Prop :=
  match e with
  | GetSpecs s | ListRunning s | ConnectTo _ s => s = serverSettings
  | StartNew options => start_serverSettings options = serverSettings
  | _ => True
  end.

(** The outcome of completing a session from state [st], once the gateway
    has answered with a live session: the list is closed, nothing is
    reported, and the kernel is handed over when the session tells its
    kernel spec and the document has a grammar. *)
Definition completed (env : Env) (gatewayName : string)
    (session : Session.ISession) (st : State)
    (result : Completion unit * State) : Prop :=
  let st' := snd result in
  panel st' = false
  ∧ reports (trace st') = reports (trace st)
  ∧ match kernel_getSpec env session with
    | inl e => fst result = Thrown e ∧ emitted (trace st') = emitted (trace st)
    | inr kernelSpec =>
        fst result = Normal tt
        ∧ emitted (trace st') =
            emitted (trace st)
            ++ match store_grammar env with
               | Some grammar =>
                   [mkKernel gatewayName kernelSpec grammar session]
               | None => []
               end
    end.

(** ** Sample collaborators *)

Module Sample.
(** Two kernel specs, displayed under their names. *)
Definition py : Kernel.ISpecModel := Kernel.mkSpec "py" "py" "python".
Definition r : Kernel.ISpecModel := Kernel.mkSpec "r" "r" "r".

Definition gateway : KernelGateway :=
  mkGateway "lab"
    (mkOptions (Some "https://lab.example:8888") None None None None ∅).

Definition running (id : string) (kernel : option string) : Session.IModel :=
  Session.mkModel id (Some ("/home/me/" +:+ id +:+ ".ipynb")) None
    (Kernel.mkModel ("k-" +:+ id) <$> kernel).

Definition failure (text : string) (status : Z) : Error :=
  mkError (Some (mkXHR (Some text) status)).

(** A URL parser for the two addresses the samples use. *)
Definition parse (url : string) : option URL.t :=
  if url =? "wss://lab.example:8888/api/kernels/1/channels"
  then Some (URL.mk "wss:" "" "" "lab.example" "8888"
               "/api/kernels/1/channels" "" "")
  else if url =? "ws://localhost/api/kernels/1/channels"
  then Some (URL.mk "ws:" "" "" "localhost" ""
               "/api/kernels/1/channels" "" "")
  else None.

(** Collaborators given by: the configured gateways, the answers to the
    discovery calls, the answers to the listing calls, the user's
    credential choices and the texts the user types. *)
Definition env (gateways : option (list KernelGateway))
    (specs : nat -> Error + Kernel.ISpecModels)
    (sessions : nat -> Error + list Session.IModel)
    (choices : nat -> Choice) (inputs : nat -> Input) : Env :=
  mkEnv gateways (Some "/home/me/a.py") (Some "source.python")
    (λ _, "0b3c") (λ path, path) (λ _, Some 7) parse
    (λ n _, specs n) (λ n _, sessions n)
    (λ _ _, inl (mkError None)) (λ _, inl (mkError None))
    (λ _, inl (mkError None))
    choices (λ n _, inputs n).

Definition specs : Kernel.ISpecModels := Kernel.mkSpecs "py" [py; r].

(** A picker toggled for Python documents. *)
Definition toggled (collaborators : Env) : State :=
  with_path (Some "/home/me/a.py-0b3c")
    (with_filter (Some (λ spec, Kernel.name spec =? "py"))
       (constructed collaborators)).

(** Failures of the kinds the picker tells apart. *)
Definition refused : Error := failure "connect ECONNREFUSED 10.0.0.1:8888" 0.
Definition timeout : Error := failure "connect ETIMEDOUT 10.0.0.1:8888" 0.
Definition down : Error := mkError None.
Definition denied : Error := failure "Forbidden" 403.

Definition sessions : list Session.IModel :=
  [running "a" (Some "py"); running "b" (Some "r"); running "c" None].

(** No gateway is configured. *)
Definition unconfigured : Env :=
  env None (λ _, inr specs) (λ _, inr []) (λ _, Dismiss) (λ _, CancelInput).

(** The gateway refuses every discovery call and the user cancels. *)
Definition cancelling : Env :=
  env (Some [gateway]) (λ _, inl refused) (λ _, inr [])
    (λ _, ConfirmCancel) (λ _, CancelInput).

(** The gateway refuses every discovery call and the user types a token. *)
Definition retrying : Env :=
  env (Some [gateway]) (λ _, inl refused) (λ _, inr [])
    (λ _, ConfirmToken) (λ _, Submit "secret").

(** The gateway cannot be reached in time. *)
Definition unreachable : Env :=
  env (Some [gateway]) (λ _, inl timeout) (λ _, inr [])
    (λ _, ConfirmToken) (λ _, Submit "secret").

(** The request fails before any response arrives. *)
Definition offline : Env :=
  env (Some [gateway]) (λ _, inl down) (λ _, inr [])
    (λ _, ConfirmToken) (λ _, Submit "secret").

(** The gateway answers discovery and refuses to list sessions. *)
Definition hidden : Env :=
  env (Some [gateway]) (λ _, inr specs) (λ _, inl denied)
    (λ _, Dismiss) (λ _, CancelInput).

(** The gateway answers discovery and lists three sessions. *)
Definition busy : Env :=
  env (Some [gateway]) (λ _, inr specs) (λ _, inr sessions)
    (λ _, Dismiss) (λ _, CancelInput).

(** The settings of the first discovery call to the sample gateway. *)
Definition settings : ServerSettings := makeSettings (seedOptions gateway).

(** The user types a cookie when asked for a cookie and a token when asked
    for a token. *)
Definition typing : Env :=
  mkEnv (Some [gateway]) (Some "/home/me/a.py") (Some "source.python")
    (λ _, "0b3c") (λ path, path) (λ _, Some 7) parse
    (λ _ _, inl refused) (λ _ _, inr [])
    (λ _ _, inl (mkError None)) (λ _, inl (mkError None))
    (λ _, inl (mkError None))
    (λ _, ConfirmCookie)
    (λ _ prompt,
       if prompt =? "Token:" then Submit "secret" else Submit "sid=1").

(** The user types one credential and, asked again, another. *)
Definition retyping : Env :=
  env (Some [gateway]) (λ _, inl refused) (λ _, inr [])
    (λ _, ConfirmCookie)
    (λ n, match n with 0 => Submit "old" | _ => Submit "new" end).

(** The session the gateway starts for the given options. *)
Definition started (options : StartOptions) : Session.ISession :=
  Session.mkSession
    (Session.mkModel "new" (start_path options) None
       (Some (Kernel.mkModel "k-new" (start_kernelName options)))).

(** The gateway answers every call: it lists three sessions, attaches to
    any of them and starts new ones, and every session tells that its
    kernel spec is [py]. *)
Definition serving : Env :=
  mkEnv (Some [gateway]) (Some "/home/me/a.py") (Some "source.python")
    (λ _, "0b3c") (λ path, path) (λ _, Some 7) parse
    (λ _ _, inr specs) (λ _ _, inr sessions)
    (λ id _, inr (Session.mkSession (running id (Some "py"))))
    (λ options, inr (started options))
    (λ _, inr py)
    (λ _, Dismiss) (λ _ _, CancelInput).
End Sample.

(** * Properties *)

(** ** The transport factory of the cookie strategy *)

Section SameOrigin.
Variable env : Env.







(** C10: whenever the cookie strategy's factory constructs a WebSocket, it
    is opened on the address the factory was given, scheme included, with
    the protocols it was given; the rewritten URL only supplies the origin
    and host options.  The factory constructs nothing only when the
    address is not a URL. *)
Theorem wsFactory_keeps_address cookie url protocol :
  match call_wsFactory env (SameOriginWs cookie) url protocol with
  | Some (Normal call) =>
      ws_address call = url
      ∧ ws_protocols call = protocol
      ∧ URL_parse env (ws_address call) = URL_parse env url
      ∧ ∃ parsedUrl,
          URL_parse env url = Some parsedUrl
          ∧ ws_headers call = Some {["Cookie" := cookie]}
          ∧ ws_origin call = Some (URL.origin (sameOrigin parsedUrl))
          ∧ ws_host call = Some (URL.host (sameOrigin parsedUrl))
  | Some (Thrown _) => URL_parse env url = None
  | None => False
  end.
Proof.
  cbn [call_wsFactory].
  destruct (URL_parse env url) as [parsedUrl|] eqn:Hp; [| done].
  cbn. rewrite Hp. eauto 10.
Qed.
End SameOrigin.

(** ** Running the list view and the prompts *)

Section Prompts.
Variable env : Env.

Lemma listView_cancel_run st :
  listView_cancel st = (Normal tt, cancelled st).
Proof.
  destruct st as [f p oc ocl focused pan o c t].
  unfold listView_cancel, cancelled, cancel_events, emit, bind, gets,
    modify, ret.
  destruct focused, pan; cbn; rewrite <- ?app_assoc, ?app_nil_r;
    reflexivity.
Qed.

Lemma listView_show_run st : listView_show st = (Normal tt, shown st).
Proof.
  destruct st as [f p oc ocl focused pan o c t].
  unfold listView_show, shown, show_events, emit, bind, gets, modify, ret.
  destruct pan; cbn; rewrite <- ?app_assoc; reflexivity.
Qed.

(** [promptForText] answers [null] when the input is cancelled or empty,
    and only shows the list again when there is a text. *)
Lemma promptForText_run prompt st :
  promptForText env prompt st =
    let st1 := asked prompt (cancelled st) in
    match user_input env (input_calls (calls st)) prompt with
    | Submit text =>
        if text =? "" then (Normal None, st1)
        else (Normal (Some text),
              with_focused (previouslyFocusedElement st) (shown st1))
    | CancelInput => (Normal None, st1)
    end.
Proof.
  unfold promptForText, bind at 1, gets. unfold bind at 1.
  rewrite listView_cancel_run. unfold bind at 1.
  change (inputPromise env prompt (cancelled st))
    with (Normal (user_input env (input_calls (calls (cancelled st))) prompt),
          asked prompt (cancelled st)).
  change (input_calls (calls (cancelled st))) with (input_calls (calls st)).
  cbv zeta.
  destruct (user_input env (input_calls (calls st)) prompt) as [text|];
    [| reflexivity].
  destruct (text =? ""); [reflexivity |].
  unfold bind at 1. rewrite listView_show_run. reflexivity.
Qed.
End Prompts.

(** ** Opening the picker *)

Section Toggle.
Variable env : Env.

(** C5: when the configuration holds no gateway list, or an empty one,
    [toggle] shows one error and returns: the select list receives no
    item set, no panel is created or shown, and no confirmation handler
    is installed. *)
Theorem toggle_without_gateways filter st :
  default [] (Config_gateways env) = [] →
  ∃ st' description,
    toggle env filter st = (Normal tt, st')
    ∧ trace st' =
        trace st ++ [AddError "No remote kernel gateways available"
                       (Some description)]
    ∧ updates (trace st') = updates (trace st)
    ∧ panel st' = panel st
    ∧ onConfirmed st' = onConfirmed st.
Proof.
  intros Hempty. unfold toggle. rewrite Hempty.
  rewrite bool_decide_eq_true_2 by reflexivity.
  destruct st as [f p oc ocl focused pan o c t].
  do 2 eexists. split; [reflexivity |]. cbn.
  split; [reflexivity |]. split; [| done].
  unfold updates. rewrite omap_app. cbn. apply app_nil_r.
Qed.

(** With at least one gateway the chooser is filled and shown. *)
Lemma toggle_with_gateways filter st gateway gateways :
  Config_gateways env = Some (gateway :: gateways) →
  ∃ st' props,
    toggle env filter st = (Normal tt, st')
    ∧ trace st' = trace st ++ Update props :: show_events st
    ∧ items props = Some (map GatewayItem (gateway :: gateways))
    ∧ onConfirmed st' = OnGateway.
Proof.
  intros Hconfig. unfold toggle. rewrite Hconfig.
  destruct st as [f p oc ocl focused pan o c t].
  cbn [default]. rewrite bool_decide_eq_false_2 by discriminate.
  unfold v4_call, emit, bind, modify, gets, ret.
  cbn -[listView_show String.append].
  rewrite listView_show_run. do 2 eexists. split; [reflexivity |].
  cbn -[String.append]. rewrite <- app_assoc. done.
Qed.
End Toggle.

(** ** The credential strategies *)

Section Strategies.
Variable env : Env.

Lemma promptForToken_run st :
  let answer := user_input env (input_calls (calls st)) "Token:" in
  promptForToken env st =
    (Normal (answered answer),
     with_options (token_applied answer (gatewayOptions st))
       (prompted "Token:" answer st)).
Proof.
  cbv zeta. unfold promptForToken, bind at 1. rewrite promptForText_run.
  unfold prompted. cbv zeta.
  destruct (user_input env _ _) as [text|]; cbn [answered token_applied];
    [destruct (text =? "") |]; cbn [negb];
    destruct st as [f p oc ocl focused pan o c t]; reflexivity.
Qed.

Lemma promptForCookie_run st :
  let answer := user_input env (input_calls (calls st)) "Cookie:" in
  promptForCookie env st =
    (Normal (answered answer),
     with_options (cookie_applied answer (gatewayOptions st))
       (prompted "Cookie:" answer st)).
Proof.
  cbv zeta. unfold promptForCookie, bind at 1. rewrite promptForText_run.
  unfold prompted. cbv zeta.
  destruct (user_input env _ _) as [text|]; cbn [answered cookie_applied];
    [destruct (text =? "") |]; cbn [negb].
  1, 3: by destruct st as [f p oc ocl focused pan o c t].
  set (st1 := with_focused _ _).
  assert (Ho : gatewayOptions st = gatewayOptions st1)
    by (by destruct st as [f p oc ocl focused pan o c t]).
  rewrite Ho. clearbody st1.
  destruct st1 as [f p oc ocl focused pan [b tk [h|] x w ot] c t];
    reflexivity.
Qed.

Lemma prompted_input_calls prompt answer st :
  input_calls (calls (prompted prompt answer st)) = S (input_calls (calls st)).
Proof. unfold prompted. by destruct (answered answer). Qed.

Lemma token_applied_twice answer o :
  token_applied answer (token_applied answer o) = token_applied answer o.
Proof.
  destruct answer as [text|]; cbn; [| done].
  destruct (text =? "") eqn:Htext; cbn; by rewrite ?Htext.
Qed.

Lemma token_applied_fields answer o :
  baseUrl (token_applied answer o) = baseUrl o
  ∧ requestHeaders (token_applied answer o) = requestHeaders o
  ∧ xhrFactory (token_applied answer o) = xhrFactory o
  ∧ wsFactory (token_applied answer o) = wsFactory o
  ∧ others (token_applied answer o) = others o.
Proof. destruct answer as [text|]; cbn; [destruct (text =? "") |]; done. Qed.

Lemma token_applied_token answer o :
  token (token_applied answer o)
  = match answer with
    | Submit text => if text =? "" then token o else Some text
    | CancelInput => token o
    end.
Proof. destruct answer as [text|]; cbn; [destruct (text =? "") |]; done. Qed.

(** C7: when the token prompt is answered the same way twice in a row, the
    options after the second application equal the options after the first;
    one application writes the typed token into the token field and leaves
    every other field as it was. *)
Theorem promptForToken_idempotent st :
  let n := input_calls (calls st) in
  let answer := user_input env n "Token:" in
  user_input env (S n) "Token:" = answer →
  let once := gatewayOptions (snd (promptForToken env st)) in
  let twice :=
    gatewayOptions (snd ((run promptForToken env; promptForToken env) st)) in
  twice = once
  ∧ token once = match answer with
                 | Submit text =>
                     if text =? "" then token (gatewayOptions st)
                     else Some text
                 | CancelInput => token (gatewayOptions st)
                 end
  ∧ baseUrl once = baseUrl (gatewayOptions st)
  ∧ requestHeaders once = requestHeaders (gatewayOptions st)
  ∧ xhrFactory once = xhrFactory (gatewayOptions st)
  ∧ wsFactory once = wsFactory (gatewayOptions st)
  ∧ others once = others (gatewayOptions st).
Proof.
  intros n answer Hsame once twice. subst once twice.
  unfold bind. rewrite promptForToken_run. fold n. fold answer.
  rewrite promptForToken_run. cbn [snd].
  change (gatewayOptions (with_options ?o _)) with o.
  change (calls (with_options ?o ?s)) with (calls s).
  rewrite prompted_input_calls. fold n. rewrite Hsame.
  split; [apply token_applied_twice |].
  split; [apply token_applied_token | apply token_applied_fields].
Qed.

Lemma promptForCredentials_run st :
  let st1 := awaiting st in
  promptForCredentials env st =
    match user_choice env (choice_calls (calls st)) with
    | ConfirmToken => promptForToken env st1
    | ConfirmCookie => promptForCookie env st1
    | ConfirmCancel => (Normal false, cancelled st1)
    | Dismiss => (Normal false, cancelled (cancelled st1))
    end.
Proof.
  destruct st as [f p oc ocl focused pan o c t].
  cbv zeta. unfold promptForCredentials, actionPromise, awaiting.
  unfold emit, bind, modify, gets, ret.
  cbn -[promptForToken promptForCookie listView_cancel credentialChoices
        String.eqb].
  rewrite <- app_assoc. cbn [app].
  destruct (user_choice env (choice_calls c));
    rewrite ?listView_cancel_run;
    repeat match goal with
      | |- context [?a =? ?b] =>
          let v := eval vm_compute in (a =? b) in change (a =? b) with v
      end;
    cbv beta iota; rewrite ?listView_cancel_run; reflexivity.
Qed.

Lemma cookie_applied_fields answer o :
  baseUrl (cookie_applied answer o) = baseUrl o
  ∧ token (cookie_applied answer o) = token o
  ∧ others (cookie_applied answer o) = others o
  ∧ ∀ h, h ≠ "Cookie" →
      headers (cookie_applied answer o) !! h = headers o !! h.
Proof.
  destruct answer as [text|]; cbn; [destruct (text =? "") |]; try done.
  repeat split. intros h Hh. unfold headers at 1. cbn.
  by rewrite lookup_insert_ne.
Qed.

(** Neither strategy unsets a field or drops a request header. *)
Lemma token_applied_monotone answer o :
  fields o ⊆ fields (token_applied answer o)
  ∧ dom (headers o) ⊆ dom (headers (token_applied answer o)).
Proof.
  destruct answer as [text|]; cbn; [destruct (text =? "") |]; try done.
  destruct o as [b tk h x w ot]. unfold fields, headers. cbn.
  split; [| done]. destruct tk; cbn; [done |].
  intros f. rewrite !elem_of_union, ?elem_of_empty. tauto.
Qed.

Lemma cookie_applied_monotone answer o :
  fields o ⊆ fields (cookie_applied answer o)
  ∧ dom (headers o) ⊆ dom (headers (cookie_applied answer o)).
Proof.
  destruct answer as [text|]; cbn; [destruct (text =? "") |]; try done.
  destruct o as [b tk h x w ot]. unfold fields, headers. cbn.
  split.
  - intros f. rewrite !elem_of_union.
    destruct h, x, w; cbn; rewrite ?elem_of_empty; tauto.
  - rewrite dom_insert_L. apply union_subseteq_r.
Qed.

(** The options a negotiation round leaves are the options it found, or
    those with one of the two strategies applied. *)
Lemma promptForCredentials_options st :
  let o := gatewayOptions st in
  let o' := gatewayOptions (snd (promptForCredentials env st)) in
  o' = o ∨ (∃ answer, o' = token_applied answer o)
  ∨ (∃ answer, o' = cookie_applied answer o).
Proof.
  cbv zeta. rewrite promptForCredentials_run. cbv zeta.
  destruct (user_choice env _).
  - rewrite promptForToken_run. right; left. eexists. reflexivity.
  - rewrite promptForCookie_run. right; right. eexists. reflexivity.
  - by left.
  - by left.
Qed.

Lemma promptForCredentials_monotone st :
  let o := gatewayOptions st in
  let o' := gatewayOptions (snd (promptForCredentials env st)) in
  fields o ⊆ fields o' ∧ dom (headers o) ⊆ dom (headers o').
Proof.
  cbv zeta.
  destruct (promptForCredentials_options st) as [-> | [[a ->] | [a ->]]].
  - done.
  - apply token_applied_monotone.
  - apply cookie_applied_monotone.
Qed.

(** C8: the token strategy changes nothing but the token field; the cookie
    strategy leaves the token, the base URL, the remaining fields and every
    request header other than [Cookie] as they were, and when it succeeds it
    sets the [Cookie] header and installs its two transport factories; after
    either strategy, after a whole negotiation round, and after two rounds in
    a row, every field and every request header that was set is still set. *)
Theorem negotiation_only_adds st :
  let o := gatewayOptions st in
  let tokened := gatewayOptions (snd (promptForToken env st)) in
  let cookied := gatewayOptions (snd (promptForCookie env st)) in
  let negotiated := gatewayOptions (snd (promptForCredentials env st)) in
  let renegotiated :=
    gatewayOptions
      (snd ((run promptForCredentials env; promptForCredentials env) st)) in
  (baseUrl tokened = baseUrl o
   ∧ requestHeaders tokened = requestHeaders o
   ∧ xhrFactory tokened = xhrFactory o
   ∧ wsFactory tokened = wsFactory o
   ∧ others tokened = others o)
  ∧ (baseUrl cookied = baseUrl o
     ∧ token cookied = token o
     ∧ others cookied = others o
     ∧ ∀ h, h ≠ "Cookie" → headers cookied !! h = headers o !! h)
  ∧ (fst (promptForCookie env st) = Normal true →
     ∃ cookie,
       user_input env (input_calls (calls st)) "Cookie:" = Submit cookie
       ∧ headers cookied !! "Cookie" = Some cookie
       ∧ xhrFactory cookied = Some HeaderCheckDisabledXhr
       ∧ wsFactory cookied = Some (SameOriginWs cookie))
  ∧ (fst (promptForToken env st) = Normal true →
     ∃ value,
       user_input env (input_calls (calls st)) "Token:" = Submit value
       ∧ token tokened = Some value)
  ∧ fields o ⊆ fields tokened
  ∧ dom (headers o) ⊆ dom (headers tokened)
  ∧ fields o ⊆ fields cookied
  ∧ dom (headers o) ⊆ dom (headers cookied)
  ∧ fields o ⊆ fields negotiated
  ∧ dom (headers o) ⊆ dom (headers negotiated)
  ∧ fields o ⊆ fields renegotiated
  ∧ dom (headers o) ⊆ dom (headers renegotiated).
Proof.
  cbv zeta. rewrite promptForToken_run, promptForCookie_run. cbv zeta.
  cbn [fst snd]. change (gatewayOptions (with_options ?o _)) with o.
  split; [apply token_applied_fields |].
  split; [apply cookie_applied_fields |].
  split.
  { destruct (user_input env _ "Cookie:") as [text|]; cbn; [| done].
    destruct (text =? "") eqn:Htext; cbn; [done |]. intros _.
    exists text. unfold headers. cbn. by rewrite lookup_insert_eq. }
  split.
  { destruct (user_input env _ "Token:") as [text|]; cbn; [| done].
    destruct (text =? "") eqn:Htext; cbn; [done |]. intros _. by exists text. }
  split; [apply token_applied_monotone |].
  split; [apply token_applied_monotone |].
  split; [apply cookie_applied_monotone |].
  split; [apply cookie_applied_monotone |].
  destruct (promptForCredentials_monotone st) as [Hfields Hheaders].
  split; [exact Hfields |]. split; [exact Hheaders |].
  unfold bind.
  destruct (promptForCredentials env st) as [[ok|e] st1]; cbn [snd] in *;
    [| done].
  destruct (promptForCredentials_monotone st1) as [Hfields1 Hheaders1].
  split; etrans; eassumption.
Qed.
End Strategies.

(** ** Classifying a discovery failure *)

Lemma append_cons c s rest : String c s +:+ rest = String c (s +:+ rest).
Proof. reflexivity. Qed.

Lemma append_empty rest : "" +:+ rest = rest.
Proof. reflexivity. Qed.

Lemma prefix_spec p s :
  String.prefix p s = true ↔ ∃ rest, s = p +:+ rest.
Proof.
  revert s. induction p as [|a p IH]; intros s.
  - destruct s; cbn; split; eauto.
  - destruct s as [|b s]; cbn.
    + split; [discriminate | intros [rest Hrest]; discriminate].
    + destruct (Ascii.ascii_dec a b) as [<- | Hab].
      * rewrite IH. split; intros [rest Hrest]; exists rest;
          rewrite append_cons in *; congruence.
      * split; [discriminate |].
        intros [rest Hrest]; rewrite append_cons in Hrest; congruence.
Qed.

(** [includes] finds exactly the texts that contain the needle. *)
Lemma includes_spec s needle :
  includes s needle = true ↔ ∃ before after, s = before +:+ needle +:+ after.
Proof.
  split.
  - induction s as [|c s IH]; cbn [includes]; rewrite orb_true_iff, prefix_spec.
    + intros [[rest Hrest] | ?]; [| done]. by exists "", rest.
    + intros [[rest Hrest] | Hin]; [by exists "", rest |].
      destruct (IH Hin) as (before & after & ->).
      by exists (String c before), after.
  - intros (before & after & ->). induction before as [|c before IH].
    + rewrite append_empty. destruct (needle +:+ after) eqn:Heq; cbn [includes];
        rewrite orb_true_iff; left; rewrite <- ?Heq;
        apply prefix_spec; eauto.
    + rewrite append_cons. cbn [includes]. rewrite IH. apply orb_true_r.
Qed.

Lemma timeout_indicator_includes text :
  timeout_indicator text ↔ includes text "ETIMEDOUT" = true.
Proof. unfold timeout_indicator. by rewrite includes_spec. Qed.

(** The payload is what the first two tests of the [catch] let through. *)
Lemma payload_truthy error :
  payload error =
    match xhr error with
    | Some x => if truthy (responseText x) then responseText x else None
    | None => None
    end.
Proof.
  unfold payload. destruct (xhr error) as [[[text|] code]|]; cbn; try done.
  destruct (decide (text = "")) as [-> | Hne]; [done |].
  apply String.eqb_neq in Hne. by rewrite Hne.
Qed.

(** ** Resolving a gateway *)

Section Resolution.
Variable env : Env.

Lemma keepsSession_offered kernelNames model :
  keepsSession kernelNames model = true ↔ offered kernelNames model.
Proof.
  unfold keepsSession, offered, identifiable_kernel.
  destruct (Session.kernel model) as [[kid kname]|]; cbn; [| done].
  destruct (decide (kname = "")) as [-> | Hne]; cbn; [done |].
  apply String.eqb_neq in Hne. rewrite Hne. cbn.
  by rewrite bool_decide_eq_true.
Qed.

Lemma filter_keepsSession kernelNames (sessionModels : list Session.IModel) :
  filter (λ model, keepsSession kernelNames model) sessionModels
  = filter (offered kernelNames) sessionModels.
Proof.
  apply list_filter_iff. intros model.
  rewrite Is_true_true. apply keepsSession_offered.
Qed.

(** The new-session branch presents the kernel specs and nothing else. *)
Lemma onSession_new gatewayName serverSettings kernelSpecs st :
  onSession env gatewayName (newSession serverSettings kernelSpecs) st
  = (Normal tt,
     presenting (kernelChoices serverSettings (_path st) kernelSpecs)
       (StartSession gatewayName) st).
Proof. destruct st as [f p oc ocl focused pan o c t]. reflexivity. Qed.

Lemma listSessions_run gatewayInfo serverSettings kernelSpecs st :
  let st1 := listing serverSettings st in
  listSessions env gatewayInfo serverSettings kernelSpecs st =
    match Session_listRunning env (listRunning_calls (calls st)) serverSettings
    with
    | inr sessionModels =>
        (Normal tt,
         presenting (sessionChoices env serverSettings kernelSpecs sessionModels)
           (OnSession (gateway_name gatewayInfo)) st1)
    | inl error =>
        match xhr error with
        | None => (Thrown error, st1)
        | Some x =>
            if (status x =? 403)%Z
            then onSession env (gateway_name gatewayInfo)
                   (newSession serverSettings kernelSpecs) st1
            else (Thrown error, st1)
        end
    end.
Proof.
  destruct st as [f p oc ocl focused pan o c t]. cbv zeta.
  unfold listSessions, Session_listRunning_call, try_catch, emit, bind, gets,
    modify, ret.
  cbn -[onSession Z.eqb filter].
  destruct (Session_listRunning env _ _) as [error | sessionModels];
    cbn -[onSession Z.eqb filter].
  - destruct (xhr error) as [x|]; [| reflexivity].
    destruct (status x =? 403)%Z; reflexivity.
  - unfold presenting, sessionChoices. rewrite filter_keepsSession.
    cbn. rewrite <- app_assoc. reflexivity.
Qed.

Lemma filterSpecs_run keep specs st :
  _kernelSpecFilter st = Some keep →
  filterSpecs specs st = (Normal (filter (λ spec, keep spec) specs), st).
Proof. intros Hkeep. unfold filterSpecs, bind, gets. by rewrite Hkeep. Qed.

(** [filterSpecs] returns or throws without touching the state. *)
Lemma filterSpecs_state specs st : snd (filterSpecs specs st) = st.
Proof.
  unfold filterSpecs, bind, gets.
  destruct (_kernelSpecFilter st); [done |]. by destruct specs.
Qed.

Lemma failure_handler_run st :
  (run emit (AddError "Connection to gateway failed" None); listView_cancel)
    st = (Normal tt, failed st).
Proof.
  unfold bind, emit, modify. by rewrite listView_cancel_run.
Qed.

Lemma Kernel_getSpecs_call_run serverSettings st :
  Kernel_getSpecs_call env serverSettings st =
    let st1 := rediscovering serverSettings st in
    match Kernel_getSpecs env (getSpecs_calls (calls st)) serverSettings with
    | inl error => (Thrown error, st1)
    | inr specModels => (Normal specModels, st1)
    end.
Proof.
  destruct st as [f p oc ocl focused pan o c t].
  unfold Kernel_getSpecs_call, rediscovering, emit, bind, gets, modify.
  cbn. by destruct (Kernel_getSpecs env _ _).
Qed.

(** The second block, once it has spec models and a filter: the sessions
    are listed and offered, or the kernel specs are offered when listing is
    refused with status 403, or the failure is reported. *)
Lemma resolveSessions_run gatewayInfo serverSettings specModels st :
  resolveSessions env gatewayInfo serverSettings specModels st =
    let st1 := resolving serverSettings specModels st in
    match specsFor env st serverSettings specModels with
    | inl error => (Normal tt, failed st1)
    | inr specModels =>
        match filterSpecs (Kernel.kernelspecs specModels) st1 with
        | (Thrown error, _) => (Normal tt, failed st1)
        | (Normal kernelSpecs, _) =>
            match listSessions env gatewayInfo serverSettings kernelSpecs st1
            with
            | (Thrown error, st2) => (Normal tt, failed st2)
            | done => done
            end
        end
    end.
Proof.
  cbv zeta. unfold resolveSessions, try_catch. unfold bind at 1.
  destruct specModels as [specModels|]; cbn [specsFor resolving].
  - unfold ret at 1. unfold bind at 1.
    pose proof (filterSpecs_state (Kernel.kernelspecs specModels) st) as Hst.
    destruct (filterSpecs _ st) as [[kernelSpecs|error] st1];
      cbn [snd] in Hst; subst st1.
    + destruct (listSessions env _ _ _ st) as [[[]|error] st2];
        [reflexivity | apply failure_handler_run].
    + apply failure_handler_run.
  - rewrite Kernel_getSpecs_call_run. cbv zeta.
    destruct (Kernel_getSpecs env _ _) as [error|specModels].
    + apply failure_handler_run.
    + unfold bind at 1.
      pose proof (filterSpecs_state (Kernel.kernelspecs specModels)
                    (rediscovering serverSettings st)) as Hst.
      destruct (filterSpecs _ _) as [[kernelSpecs|error] st1];
        cbn [snd] in Hst; subst st1.
      * destruct (listSessions env _ _ _ _) as [[[]|error] st2];
          [reflexivity | apply failure_handler_run].
      * apply failure_handler_run.
Qed.

(** *** Traces of the stages *)

Lemma trace_failed st :
  trace (failed st)
  = trace st ++ AddError "Connection to gateway failed" None
                :: cancel_events st.
Proof. unfold failed. cbn. by rewrite <- app_assoc. Qed.

Lemma trace_resolving serverSettings specModels st :
  trace (resolving serverSettings specModels st)
  = trace st ++ match specModels with
                | Some _ => []
                | None => [GetSpecs serverSettings]
                end.
Proof. destruct specModels; cbn; by rewrite ?app_nil_r. Qed.

Lemma updates_app t1 t2 : updates (t1 ++ t2) = updates t1 ++ updates t2.
Proof. apply omap_app. Qed.

Lemma reports_app t1 t2 : reports (t1 ++ t2) = reports t1 ++ reports t2.
Proof. apply omap_app. Qed.

Lemma discoveries_app t1 t2 :
  discoveries (t1 ++ t2) = discoveries t1 ++ discoveries t2.
Proof. apply omap_app. Qed.

Lemma listings_app t1 t2 : listings (t1 ++ t2) = listings t1 ++ listings t2.
Proof. apply omap_app. Qed.

Lemma emitted_app t1 t2 : emitted (t1 ++ t2) = emitted t1 ++ emitted t2.
Proof. apply omap_app. Qed.

Lemma rounds_app t1 t2 : rounds (t1 ++ t2) = rounds t1 + rounds t2.
Proof. unfold rounds. by rewrite omap_app, length_app. Qed.

(** Closing or showing the list is none of the calls the claims count. *)
Lemma cancel_events_silent st :
  updates (cancel_events st) = [] ∧ reports (cancel_events st) = []
  ∧ discoveries (cancel_events st) = [] ∧ listings (cancel_events st) = []
  ∧ emitted (cancel_events st) = [] ∧ rounds (cancel_events st) = 0.
Proof.
  unfold cancel_events.
  by destruct (panel st), (previouslyFocusedElement st).
Qed.

Lemma resolving_fields serverSettings specModels st :
  listRunning_calls (calls (resolving serverSettings specModels st))
    = listRunning_calls (calls st)
  ∧ _path (resolving serverSettings specModels st) = _path st
  ∧ _kernelSpecFilter (resolving serverSettings specModels st)
    = _kernelSpecFilter st
  ∧ panel (resolving serverSettings specModels st) = panel st
  ∧ cancel_events (resolving serverSettings specModels st) = cancel_events st.
Proof. by destruct specModels. Qed.

Lemma resolving_silent serverSettings specModels st :
  let st1 := resolving serverSettings specModels st in
  updates (trace st1) = updates (trace st)
  ∧ reports (trace st1) = reports (trace st)
  ∧ listings (trace st1) = listings (trace st)
  ∧ emitted (trace st1) = emitted (trace st)
  ∧ rounds (trace st1) = rounds (trace st).
Proof.
  cbv zeta. rewrite trace_resolving.
  rewrite updates_app, reports_app, listings_app, emitted_app, rounds_app.
  destruct specModels; cbn; rewrite ?app_nil_r; repeat split; lia.
Qed.

(** The second block with spec models at hand, a filter set, and an answer
    to the listing call. *)
Lemma resolveSessions_listing gatewayInfo serverSettings specModels st
    keep discovered :
  _kernelSpecFilter st = Some keep →
  specsFor env st serverSettings specModels = inr discovered →
  let st1 := listing serverSettings (resolving serverSettings specModels st) in
  let kernelSpecs :=
    filter (λ spec, keep spec) (Kernel.kernelspecs discovered) in
  resolveSessions env gatewayInfo serverSettings specModels st =
    match Session_listRunning env (listRunning_calls (calls st)) serverSettings
    with
    | inr sessionModels =>
        (Normal tt,
         presenting (sessionChoices env serverSettings kernelSpecs sessionModels)
           (OnSession (gateway_name gatewayInfo)) st1)
    | inl error =>
        match xhr error with
        | None => (Normal tt, failed st1)
        | Some x =>
            if (status x =? 403)%Z
            then (Normal tt,
                  presenting
                    (kernelChoices serverSettings (_path st) kernelSpecs)
                    (StartSession (gateway_name gatewayInfo)) st1)
            else (Normal tt, failed st1)
        end
    end.
Proof.
  intros Hkeep Hspecs. cbv zeta. rewrite resolveSessions_run. cbv zeta.
  rewrite Hspecs.
  destruct (resolving_fields serverSettings specModels st)
    as (Hcalls & Hpath & Hfilter & _).
  rewrite (filterSpecs_run keep) by congruence.
  rewrite listSessions_run. cbv zeta. rewrite Hcalls.
  destruct (Session_listRunning env _ _) as [error|sessionModels];
    [| reflexivity].
  destruct (xhr error) as [x|]; [| reflexivity].
  destruct (status x =? 403)%Z; [| reflexivity].
  rewrite onSession_new. cbn [_path listing]. by rewrite <- Hpath.
Qed.

(** C4: when the listing call answers with sessions, the select list
    receives the new-session entry followed by one entry per offered session;
    the offered sessions are those of the answer, in the order of the answer,
    whose kernel name is one of the filtered kernel-spec names or that have
    no identifiable kernel name. *)
Theorem sessions_offered gatewayInfo serverSettings specModels st
    keep discovered sessionModels :
  _kernelSpecFilter st = Some keep →
  specsFor env st serverSettings specModels = inr discovered →
  Session_listRunning env (listRunning_calls (calls st)) serverSettings
    = inr sessionModels →
  let kernelSpecs :=
    filter (λ spec, keep spec) (Kernel.kernelspecs discovered) in
  let kernelNames := map Kernel.name kernelSpecs in
  ∃ st' kept,
    resolveSessions env gatewayInfo serverSettings specModels st
      = (Normal tt, st')
    ∧ updates (trace st') =
        updates (trace st)
        ++ [mkProps
              (Some (SessionItem (newSession serverSettings kernelSpecs)
                     :: map (sessionItem env serverSettings) kept))
              Absent Null Absent Absent]
    ∧ kept = filter (offered kernelNames) sessionModels
    ∧ kept `sublist_of` sessionModels
    ∧ (∀ model,
         model ∈ kept ↔
         model ∈ sessionModels
         ∧ (identifiable_kernel model = None
            ∨ ∃ n, identifiable_kernel model = Some n ∧ n ∈ kernelNames))
    ∧ onConfirmed st' = OnSession (gateway_name gatewayInfo)
    ∧ reports (trace st') = reports (trace st).
Proof.
  intros Hkeep Hspecs Hlist kernelSpecs kernelNames.
  rewrite (resolveSessions_listing _ _ _ _ keep discovered) by done.
  cbv zeta. rewrite Hlist. do 2 eexists. split; [reflexivity |].
  unfold presenting, listing. cbn [trace with_trace with_onConfirmed
    with_calls onConfirmed].
  rewrite trace_resolving, !updates_app, !reports_app.
  split; [| split; [reflexivity | split; [apply sublist_filter | split]]].
  - destruct specModels; cbn; by rewrite ?app_nil_r.
  - intros model. rewrite list_elem_of_filter. unfold offered.
    destruct (identifiable_kernel model) as [n|].
    + split; [intros [? ?]; eauto |].
      intros [? [? | (n' & [= <-] & ?)]]; done.
    + split; [intros [? ?]; eauto | intros [? _]; done].
  - split; [done |]. destruct specModels; cbn; by rewrite ?app_nil_r.
Qed.

(** C3: when the listing call fails with status 403, nothing is reported and
    the select list receives the kernel-spec choices of the new-session
    branch, one per filtered kernel spec, with [startSession] as the
    confirmation handler; when it fails in any other way, the failure is
    reported, the list is closed and no choice is offered. *)
Theorem listing_failure gatewayInfo serverSettings specModels st
    keep discovered error :
  _kernelSpecFilter st = Some keep →
  specsFor env st serverSettings specModels = inr discovered →
  Session_listRunning env (listRunning_calls (calls st)) serverSettings
    = inl error →
  let kernelSpecs :=
    filter (λ spec, keep spec) (Kernel.kernelspecs discovered) in
  ∃ st',
    resolveSessions env gatewayInfo serverSettings specModels st
      = (Normal tt, st')
    ∧ listings (trace st') = listings (trace st) ++ [serverSettings]
    ∧ (forbidden error →
         updates (trace st') =
           updates (trace st)
           ++ [kernelChoices serverSettings (_path st) kernelSpecs]
         ∧ reports (trace st') = reports (trace st)
         ∧ onConfirmed st' = StartSession (gateway_name gatewayInfo)
         ∧ panel st' = panel st)
    ∧ (¬ forbidden error →
         reports (trace st') =
           reports (trace st) ++ ["Connection to gateway failed"]
         ∧ updates (trace st') = updates (trace st)
         ∧ panel st' = false
         ∧ emitted (trace st') = emitted (trace st)).
Proof.
  intros Hkeep Hspecs Hlist kernelSpecs.
  rewrite (resolveSessions_listing _ _ _ _ keep discovered) by done.
  cbv zeta. rewrite Hlist.
  destruct (resolving_fields serverSettings specModels st)
    as (_ & _ & _ & Hpanel & Hcancel).
  destruct (resolving_silent serverSettings specModels st)
    as (Hu & Hr & Hl & He & _).
  assert (Hfailed :
    let st' := failed (listing serverSettings
                         (resolving serverSettings specModels st)) in
    listings (trace st') = listings (trace st) ++ [serverSettings]
    ∧ reports (trace st') =
        reports (trace st) ++ ["Connection to gateway failed"]
    ∧ updates (trace st') = updates (trace st)
    ∧ panel st' = false
    ∧ emitted (trace st') = emitted (trace st)).
  { cbv zeta. rewrite trace_failed. cbn [listing trace with_trace with_calls].
    change (cancel_events (with_calls _ (with_trace _ ?s)))
      with (cancel_events s).
    rewrite !listings_app, !reports_app, !updates_app, !emitted_app.
    rewrite Hu, Hr, Hl, He. unfold cancel_events.
    destruct (panel _), (previouslyFocusedElement _); cbn;
      by rewrite ?app_nil_r. }
  destruct (xhr error) as [x|] eqn:Hxhr.
  - destruct (status x =? 403)%Z eqn:Hstatus.
    + apply Z.eqb_eq in Hstatus. eexists. split; [reflexivity |].
      unfold presenting, listing.
      cbn [trace with_trace with_onConfirmed with_calls onConfirmed panel].
      rewrite !listings_app, !updates_app, !reports_app.
      rewrite Hu, Hr, Hl. cbn. rewrite !app_nil_r. split; [done |]. split.
      * intros _. by rewrite Hpanel.
      * intros Hnot. exfalso. apply Hnot. by exists x.
    + apply Z.eqb_neq in Hstatus. eexists. split; [reflexivity |].
      split; [apply Hfailed |]. split.
      * intros (x' & Hx' & Hcode). congruence.
      * intros _. apply Hfailed.
  - eexists. split; [reflexivity |]. split; [apply Hfailed |]. split.
    + intros (x' & Hx' & _). congruence.
    + intros _. apply Hfailed.
Qed.

(** *** The first block *)

Lemma onGateway_run gatewayInfo st :
  let st1 := discovering gatewayInfo st in
  let serverSettings := makeSettings (seedOptions gatewayInfo) in
  onGateway env gatewayInfo st =
    match Kernel_getSpecs env (getSpecs_calls (calls st)) serverSettings with
    | inr specModels =>
        resolveSessions env gatewayInfo serverSettings (Some specModels) st1
    | inl error =>
        match onDiscoveryError env error st1 with
        | (Normal Return, st2) => (Normal tt, st2)
        | (Normal (Proceed serverSettings specModels), st2) =>
            resolveSessions env gatewayInfo serverSettings specModels st2
        | (Thrown e, st2) => (Thrown e, st2)
        end
    end.
Proof.
  destruct st as [f p oc ocl focused pan o c t]. cbv zeta.
  unfold onGateway, Kernel_getSpecs_call, discovering.
  unfold try_catch, emit, bind, modify, gets, ret.
  cbn -[resolveSessions onDiscoveryError seedOptions loadingSessions].
  rewrite <- app_assoc. cbn [app].
  destruct (Kernel_getSpecs env _ _) as [error|specModels];
    cbn -[resolveSessions onDiscoveryError seedOptions loadingSessions];
    [| reflexivity].
  destruct (onDiscoveryError env error _) as [[[s m|]|e] st2]; reflexivity.
Qed.

Lemma onDiscoveryError_unstructured error st :
  unstructured error → onDiscoveryError env error st = (Thrown error, st).
Proof.
  unfold unstructured. rewrite payload_truthy. unfold onDiscoveryError.
  destruct (xhr error) as [x|]; [| done].
  destruct (truthy (responseText x)) eqn:Htruthy; [| done].
  by destruct (responseText x).
Qed.

Lemma onDiscoveryError_timed_out error st :
  timed_out error → onDiscoveryError env error st = (Normal Return, failed st).
Proof.
  intros (text & Hpayload & Htimeout). rewrite payload_truthy in Hpayload.
  unfold onDiscoveryError. destruct (xhr error) as [x|]; [| done].
  destruct (truthy (responseText x)); [| done]. rewrite Hpayload.
  apply timeout_indicator_includes in Htimeout. cbn [negb].
  change (default "" (Some text)) with text. rewrite Htimeout.
  unfold bind, emit, modify.
  by rewrite listView_cancel_run.
Qed.

Lemma onDiscoveryError_ambiguous error st :
  ambiguous error →
  onDiscoveryError env error st =
    match promptForCredentials env st with
    | (Normal true, st2) =>
        (Normal (Proceed (makeSettings (gatewayOptions st2)) None),
         with_trace (trace st2 ++ [Update loadingSessions]) st2)
    | (Normal false, st2) => (Normal Return, st2)
    | (Thrown e, st2) => (Thrown e, st2)
    end.
Proof.
  intros (text & Hpayload & Htimeout). rewrite payload_truthy in Hpayload.
  unfold onDiscoveryError. destruct (xhr error) as [x|]; [| done].
  destruct (truthy (responseText x)); [| done]. rewrite Hpayload.
  rewrite timeout_indicator_includes in Htimeout.
  apply not_true_is_false in Htimeout. cbn [negb].
  change (default "" (Some text)) with text. rewrite Htimeout. unfold bind at 1.
  destruct (promptForCredentials env st) as [[[]|e] st2]; reflexivity.
Qed.

Lemma trace_discovering gatewayInfo st :
  trace (discovering gatewayInfo st)
  = trace st ++ [Update loadingSessions;
                 GetSpecs (makeSettings (seedOptions gatewayInfo))].
Proof. reflexivity. Qed.

(** C9: when the first discovery call fails without a structured payload,
    [onGateway] throws that same failure to its caller right after the call:
    no credential choice is asked for, nothing is reported, the list stays as
    it is and no kernel is handed to [onChosen]. *)
Theorem unstructured_failure_rethrown gatewayInfo st error :
  Kernel_getSpecs env (getSpecs_calls (calls st))
    (makeSettings (seedOptions gatewayInfo)) = inl error →
  unstructured error →
  ∃ st',
    onGateway env gatewayInfo st = (Thrown error, st')
    ∧ trace st' =
        trace st ++ [Update loadingSessions;
                     GetSpecs (makeSettings (seedOptions gatewayInfo))]
    ∧ rounds (trace st') = rounds (trace st)
    ∧ reports (trace st') = reports (trace st)
    ∧ emitted (trace st') = emitted (trace st)
    ∧ panel st' = panel st.
Proof.
  intros Hfirst Hkind. rewrite onGateway_run. cbv zeta. rewrite Hfirst.
  rewrite onDiscoveryError_unstructured by done.
  eexists. split; [reflexivity |]. rewrite trace_discovering.
  rewrite rounds_app, reports_app, emitted_app. cbn.
  rewrite !app_nil_r. repeat split; lia.
Qed.

(** C2: when the first discovery call fails with a payload that carries the
    timeout indicator, [onGateway] reports the failure, closes the list and
    returns: no credential choice is asked for and no further discovery call
    is made. *)
Theorem timeout_reported gatewayInfo st error :
  Kernel_getSpecs env (getSpecs_calls (calls st))
    (makeSettings (seedOptions gatewayInfo)) = inl error →
  timed_out error →
  ∃ st',
    onGateway env gatewayInfo st = (Normal tt, st')
    ∧ trace st' =
        trace st
        ++ [Update loadingSessions;
            GetSpecs (makeSettings (seedOptions gatewayInfo));
            AddError "Connection to gateway failed" None]
        ++ cancel_events st
    ∧ rounds (trace st') = rounds (trace st)
    ∧ discoveries (trace st') =
        discoveries (trace st) ++ [makeSettings (seedOptions gatewayInfo)]
    ∧ reports (trace st') =
        reports (trace st) ++ ["Connection to gateway failed"]
    ∧ listings (trace st') = listings (trace st)
    ∧ panel st' = false.
Proof.
  intros Hfirst Hkind. rewrite onGateway_run. cbv zeta. rewrite Hfirst.
  rewrite onDiscoveryError_timed_out by done.
  eexists. split; [reflexivity |]. rewrite trace_failed, trace_discovering.
  change (cancel_events (discovering gatewayInfo st)) with (cancel_events st).
  rewrite <- app_assoc. cbn [app]. split; [reflexivity |].
  destruct (cancel_events_silent st) as (_ & Hr & Hd & Hl & _ & Hn).
  change (?l ++ ?a :: ?b :: ?c :: ?k) with (l ++ [a; b; c] ++ k).
  rewrite !rounds_app, !discoveries_app, !reports_app, !listings_app.
  rewrite Hr, Hd, Hl, Hn. cbn. rewrite !app_nil_r. repeat split; lia.
Qed.

(** *** What each stage adds to the counted calls *)

Ltac footprint :=
  cbn; unfold rounds, discoveries, reports, listings, emitted, updates;
  rewrite <- ?app_assoc; rewrite ?omap_app, ?length_app;
  cbn; rewrite ?app_nil_r, ?Nat.add_0_r; repeat split; try done; try lia.

Lemma failed_footprint st :
  rounds (trace (failed st)) = rounds (trace st)
  ∧ discoveries (trace (failed st)) = discoveries (trace st)
  ∧ listings (trace (failed st)) = listings (trace st)
  ∧ updates (trace (failed st)) = updates (trace st)
  ∧ emitted (trace (failed st)) = emitted (trace st)
  ∧ reports (trace (failed st))
    = reports (trace st) ++ ["Connection to gateway failed"]
  ∧ panel (failed st) = false.
Proof.
  rewrite trace_failed. unfold cancel_events.
  destruct (panel st), (previouslyFocusedElement st); footprint.
Qed.

Lemma prompted_footprint prompt answer st :
  let st' := prompted prompt answer st in
  rounds (trace st') = rounds (trace st)
  ∧ discoveries (trace st') = discoveries (trace st)
  ∧ listings (trace st') = listings (trace st)
  ∧ emitted (trace st') = emitted (trace st)
  ∧ reports (trace st') = reports (trace st)
  ∧ getSpecs_calls (calls st') = getSpecs_calls (calls st).
Proof.
  destruct st as [f p oc ocl focused pan o c t]. unfold prompted.
  destruct (answered answer), pan, focused; footprint.
Qed.

(** A negotiation round asks for one choice, returns, and makes no
    discovery or listing call and no report. *)
Lemma promptForCredentials_footprint st :
  let result := promptForCredentials env st in
  let st' := snd result in
  (∃ ok, fst result = Normal ok)
  ∧ rounds (trace st') = S (rounds (trace st))
  ∧ discoveries (trace st') = discoveries (trace st)
  ∧ listings (trace st') = listings (trace st)
  ∧ emitted (trace st') = emitted (trace st)
  ∧ reports (trace st') = reports (trace st)
  ∧ getSpecs_calls (calls st') = getSpecs_calls (calls st).
Proof.
  cbv zeta. rewrite promptForCredentials_run. cbv zeta.
  assert (Hawait :
    rounds (trace (awaiting st)) = S (rounds (trace st))
    ∧ discoveries (trace (awaiting st)) = discoveries (trace st)
    ∧ listings (trace (awaiting st)) = listings (trace st)
    ∧ emitted (trace (awaiting st)) = emitted (trace st)
    ∧ reports (trace (awaiting st)) = reports (trace st)
    ∧ getSpecs_calls (calls (awaiting st)) = getSpecs_calls (calls st)).
  { destruct st as [f p oc ocl focused pan o c t]. footprint. }
  destruct Hawait as (Hn & Hd & Hl & He & Hr & Hc).
  destruct (user_choice env _).
  - rewrite promptForToken_run. cbv zeta. cbn [fst snd].
    change (trace (with_options _ ?s)) with (trace s).
    change (calls (with_options _ ?s)) with (calls s).
    destruct (prompted_footprint "Token:"
                (user_input env (input_calls (calls (awaiting st))) "Token:")
                (awaiting st)) as (-> & -> & -> & -> & -> & ->).
    eauto 10.
  - rewrite promptForCookie_run. cbv zeta. cbn [fst snd].
    change (trace (with_options _ ?s)) with (trace s).
    change (calls (with_options _ ?s)) with (calls s).
    destruct (prompted_footprint "Cookie:"
                (user_input env (input_calls (calls (awaiting st))) "Cookie:")
                (awaiting st)) as (-> & -> & -> & -> & -> & ->).
    eauto 10.
  - cbn [fst snd]. split; [eauto |].
    destruct (cancel_events_silent (awaiting st))
      as (_ & Hr' & Hd' & Hl' & He' & Hn').
    change (trace (cancelled ?s)) with (trace s ++ cancel_events s).
    rewrite rounds_app, discoveries_app, listings_app, emitted_app,
      reports_app, Hr', Hd', Hl', He', Hn', !app_nil_r.
    repeat split; try done; lia.
  - cbn [fst snd]. split; [eauto |].
    destruct (cancel_events_silent (awaiting st))
      as (_ & Hr' & Hd' & Hl' & He' & Hn').
    destruct (cancel_events_silent (cancelled (awaiting st)))
      as (_ & Hr2 & Hd2 & Hl2 & He2 & Hn2).
    change (trace (cancelled ?s)) with (trace s ++ cancel_events s).
    change (trace (cancelled ?s)) with (trace s ++ cancel_events s).
    rewrite !rounds_app, !discoveries_app, !listings_app, !emitted_app,
      !reports_app, Hr', Hd', Hl', He', Hn', Hr2, Hd2, Hl2, He2, Hn2,
      !app_nil_r.
    repeat split; try done; lia.
Qed.

Lemma listSessions_footprint gatewayInfo serverSettings kernelSpecs st :
  let st' := snd (listSessions env gatewayInfo serverSettings kernelSpecs st) in
  rounds (trace st') = rounds (trace st)
  ∧ discoveries (trace st') = discoveries (trace st)
  ∧ emitted (trace st') = emitted (trace st)
  ∧ reports (trace st') = reports (trace st)
  ∧ cancel_events st' = cancel_events st.
Proof.
  cbv zeta. rewrite listSessions_run. cbv zeta.
  destruct st as [f p oc ocl focused pan o c t].
  destruct (Session_listRunning env _ _) as [error|sessionModels];
    [| footprint].
  destruct (xhr error) as [x|]; [| footprint].
  destruct (status x =? 403)%Z; [| footprint].
  rewrite onSession_new. footprint.
Qed.

(** The second block always returns; it asks for no credential choice,
    hands no kernel to [onChosen], and makes a discovery call only when it
    was handed no spec models. *)
Lemma resolveSessions_footprint gatewayInfo serverSettings specModels st :
  let result :=
    resolveSessions env gatewayInfo serverSettings specModels st in
  let st' := snd result in
  fst result = Normal tt
  ∧ rounds (trace st') = rounds (trace st)
  ∧ emitted (trace st') = emitted (trace st)
  ∧ discoveries (trace st') =
      discoveries (trace st)
      ++ match specModels with
         | Some _ => []
         | None => [serverSettings]
         end.
Proof.
  cbv zeta. rewrite resolveSessions_run. cbv zeta.
  set (st1 := resolving serverSettings specModels st).
  assert (Hst1 :
    rounds (trace st1) = rounds (trace st)
    ∧ emitted (trace st1) = emitted (trace st)
    ∧ discoveries (trace st1) =
        discoveries (trace st)
        ++ match specModels with
           | Some _ => []
           | None => [serverSettings]
           end).
  { subst st1. rewrite trace_resolving.
    rewrite rounds_app, emitted_app, discoveries_app.
    destruct specModels; cbn; rewrite ?app_nil_r; repeat split; lia. }
  destruct Hst1 as (Hn & He & Hd).
  assert (Hfailed : ∀ st2,
    rounds (trace st2) = rounds (trace st)
    ∧ emitted (trace st2) = emitted (trace st)
    ∧ discoveries (trace st2) =
        discoveries (trace st)
        ++ match specModels with
           | Some _ => []
           | None => [serverSettings]
           end →
    rounds (trace (failed st2)) = rounds (trace st)
    ∧ emitted (trace (failed st2)) = emitted (trace st)
    ∧ discoveries (trace (failed st2)) =
        discoveries (trace st)
        ++ match specModels with
           | Some _ => []
           | None => [serverSettings]
           end).
  { intros st2 (Hn2 & He2 & Hd2).
    destruct (failed_footprint st2) as (-> & -> & _ & _ & -> & _). done. }
  destruct (specsFor env st serverSettings specModels) as [error|discovered].
  { cbn [fst snd]. split; [done |]. by apply Hfailed. }
  destruct (filterSpecs _ st1) as [[kernelSpecs|error] stx].
  2: { cbn [fst snd]. split; [done |]. by apply Hfailed. }
  pose proof (listSessions_footprint gatewayInfo serverSettings kernelSpecs
                st1) as Hlist. cbv zeta in Hlist.
  destruct (listSessions env _ _ _ st1) as [[[]|error] st2];
    cbn [fst snd] in *; destruct Hlist as (Hn2 & Hd2 & He2 & _);
    (split; [done |]).
  - rewrite Hn2, Hd2, He2. done.
  - apply Hfailed. rewrite Hn2, Hd2, He2. done.
Qed.

Lemma discovering_footprint gatewayInfo st :
  let st1 := discovering gatewayInfo st in
  rounds (trace st1) = rounds (trace st)
  ∧ discoveries (trace st1) =
      discoveries (trace st) ++ [makeSettings (seedOptions gatewayInfo)]
  ∧ listings (trace st1) = listings (trace st)
  ∧ emitted (trace st1) = emitted (trace st)
  ∧ reports (trace st1) = reports (trace st)
  ∧ getSpecs_calls (calls st1) = S (getSpecs_calls (calls st))
  ∧ gatewayOptions st1 = seedOptions gatewayInfo.
Proof.
  destruct st as [f p oc ocl focused pan o c t]. cbv zeta.
  rewrite trace_discovering. footprint.
Qed.

(** A negotiation round that succeeds has put a typed text into the token
    field or into the cookie fields. *)
Lemma promptForCredentials_applied st st' :
  promptForCredentials env st = (Normal true, st') →
  ∃ text,
    text ≠ ""
    ∧ (gatewayOptions st' = with_token (Some text) (gatewayOptions st)
       ∨ gatewayOptions st' = with_cookie text (gatewayOptions st)).
Proof.
  rewrite promptForCredentials_run. cbv zeta.
  destruct (user_choice env _); [| | done..].
  - rewrite promptForToken_run. cbv zeta. intros [= Hok <-].
    destruct (user_input env _ _) as [text|]; cbn in Hok; [| done].
    exists text. destruct (text =? "") eqn:Htext; [done |].
    apply String.eqb_neq in Htext. split; [done |]. left. cbn.
    apply String.eqb_neq in Htext. by rewrite Htext.
  - rewrite promptForCookie_run. cbv zeta. intros [= Hok <-].
    destruct (user_input env _ _) as [text|]; cbn in Hok; [| done].
    exists text. destruct (text =? "") eqn:Htext; [done |].
    apply String.eqb_neq in Htext. split; [done |]. right. cbn.
    apply String.eqb_neq in Htext. by rewrite Htext.
Qed.

(** C1 (amended): after a first discovery failure that is ambiguous,
    [onGateway] asks for credentials exactly once and returns.  When the
    negotiation applied a token or a cookie, the discovery call is repeated
    exactly once, with settings made from the changed options; if that call
    fails too, the failure is reported, the list is closed and no session is
    listed.  When the negotiation was cancelled, no further discovery call
    is made and nothing is reported. *)
Theorem ambiguous_failure_negotiated_once gatewayInfo st error :
  Kernel_getSpecs env (getSpecs_calls (calls st))
    (makeSettings (seedOptions gatewayInfo)) = inl error →
  ambiguous error →
  let negotiation := promptForCredentials env (discovering gatewayInfo st) in
  let options := gatewayOptions (snd negotiation) in
  let first := makeSettings (seedOptions gatewayInfo) in
  let st' := snd (onGateway env gatewayInfo st) in
  fst (onGateway env gatewayInfo st) = Normal tt
  ∧ rounds (trace st') = S (rounds (trace st))
  ∧ emitted (trace st') = emitted (trace st)
  ∧ (fst negotiation = Normal true →
       discoveries (trace st') =
         discoveries (trace st) ++ [first; makeSettings options]
       ∧ (∃ text,
            text ≠ ""
            ∧ (options = with_token (Some text) (seedOptions gatewayInfo)
               ∨ options = with_cookie text (seedOptions gatewayInfo)))
       ∧ ∀ second,
           Kernel_getSpecs env (S (getSpecs_calls (calls st)))
             (makeSettings options) = inl second →
           reports (trace st') =
             reports (trace st) ++ ["Connection to gateway failed"]
           ∧ listings (trace st') = listings (trace st)
           ∧ panel st' = false)
  ∧ (fst negotiation = Normal false →
       discoveries (trace st') = discoveries (trace st) ++ [first]
       ∧ reports (trace st') = reports (trace st)
       ∧ listings (trace st') = listings (trace st)).
Proof.
  intros Hfirst Hkind. cbv zeta. rewrite onGateway_run. cbv zeta.
  rewrite Hfirst, onDiscoveryError_ambiguous by done.
  destruct (discovering_footprint gatewayInfo st)
    as (Hn1 & Hd1 & Hl1 & He1 & Hr1 & Hc1 & Ho1).
  pose proof (promptForCredentials_footprint (discovering gatewayInfo st))
    as Hneg. cbv zeta in Hneg.
  pose proof (promptForCredentials_applied (discovering gatewayInfo st))
    as Happlied.
  destruct (promptForCredentials env (discovering gatewayInfo st))
    as [[ok|e] st2]; cbn [fst snd] in *;
    destruct Hneg as ([ok' Hok] & Hn2 & Hd2 & Hl2 & He2 & Hr2 & Hc2);
    [| done].
  destruct ok.
  - set (st3 := with_trace (trace st2 ++ [Update loadingSessions]) st2).
    assert (Hst3 :
      rounds (trace st3) = rounds (trace st2)
      ∧ discoveries (trace st3) = discoveries (trace st2)
      ∧ listings (trace st3) = listings (trace st2)
      ∧ emitted (trace st3) = emitted (trace st2)
      ∧ reports (trace st3) = reports (trace st2)
      ∧ getSpecs_calls (calls st3) = getSpecs_calls (calls st2)).
    { subst st3. cbn [trace with_trace].
      rewrite rounds_app, discoveries_app, listings_app, emitted_app,
        reports_app. cbn. rewrite !app_nil_r. repeat split; lia. }
    destruct Hst3 as (Hn3 & Hd3 & Hl3 & He3 & Hr3 & Hc3). clearbody st3.
    pose proof (resolveSessions_footprint gatewayInfo
                  (makeSettings (gatewayOptions st2)) None st3) as Hres.
    cbv zeta in Hres. destruct Hres as (Hret & Hn4 & He4 & Hd4).
    split; [done |]. split; [lia |]. split; [congruence |]. split.
    + intros _. split.
      { rewrite Hd4, Hd3, Hd2, Hd1, <- app_assoc. done. }
      split.
      { destruct (Happlied st2 eq_refl) as (text & Htext & Hoptions).
        exists text. by rewrite <- Ho1. }
      intros second Hsecond. rewrite resolveSessions_run. cbv zeta.
      cbn [specsFor resolving].
      rewrite Hc3, Hc2, Hc1, Hsecond. cbn [snd].
      destruct (failed_footprint
                  (rediscovering (makeSettings (gatewayOptions st2)) st3))
        as (_ & _ & -> & _ & _ & -> & ->).
      cbn [rediscovering trace with_trace with_calls].
      rewrite reports_app, listings_app. cbn.
      rewrite !app_nil_r, Hr3, Hr2, Hr1, Hl3, Hl2, Hl1. done.
    + done.
  - cbn [fst snd]. split; [done |]. split; [lia |]. split; [congruence |].
    split; [done |]. intros _. by rewrite Hd2, Hd1, Hr2, Hr1, Hl2, Hl1.
Qed.
End Resolution.

(** * The properties at the sample collaborators *)

Lemma refused_ambiguous : ambiguous Sample.refused.
Proof.
  exists "connect ECONNREFUSED 10.0.0.1:8888". split; [reflexivity |].
  rewrite timeout_indicator_includes. vm_compute. discriminate.
Qed.

Lemma timeout_timed_out : timed_out Sample.timeout.
Proof.
  exists "connect ETIMEDOUT 10.0.0.1:8888". split; [reflexivity |].
  by exists "connect ", " 10.0.0.1:8888".
Qed.

(** The gateway refuses discovery, the user picks the token strategy and
    types a token, and the retried discovery is refused again. *)
Lemma ambiguous_failure_negotiated_once_witness :
  let picker := Sample.toggled Sample.retrying in
  Kernel_getSpecs Sample.retrying 0 Sample.settings = inl Sample.refused
  ∧ ambiguous Sample.refused
  ∧ let st' := snd (onGateway Sample.retrying Sample.gateway picker) in
    rounds (trace st') = 1
    ∧ discoveries (trace st') =
        [Sample.settings;
         makeSettings (with_token (Some "secret")
                         (seedOptions Sample.gateway))]
    ∧ reports (trace st') = ["Connection to gateway failed"]
    ∧ listings (trace st') = [].
Proof.
  split; [reflexivity |]. split; [apply refused_ambiguous |].
  destruct (ambiguous_failure_negotiated_once Sample.retrying Sample.gateway
              (Sample.toggled Sample.retrying) Sample.refused
              eq_refl refused_ambiguous)
    as (_ & Hrounds & _ & Happlied & _).
  destruct (Happlied eq_refl) as (Hcalls & _ & Hsecond).
  destruct (Hsecond Sample.refused eq_refl) as (Hreports & Hlistings & _).
  cbv zeta. split; [exact Hrounds |]. split; [exact Hcalls |].
  split; [exact Hreports | exact Hlistings].
Defined.

(** The gateway refuses discovery and the user cancels the negotiation:
    there is one round, [Kernel.getSpecs] is called once and not again, and
    nothing is reported. *)
Lemma cancelled_negotiation_not_retried :
  let picker := Sample.toggled Sample.cancelling in
  Kernel_getSpecs Sample.cancelling 0 Sample.settings = inl Sample.refused
  ∧ ambiguous Sample.refused
  ∧ let st' := snd (onGateway Sample.cancelling Sample.gateway picker) in
    rounds (trace st') = 1
    ∧ discoveries (trace st') = [Sample.settings]
    ∧ length (discoveries (trace st')) ≠ 2
    ∧ reports (trace st') = [].
Proof.
  split; [reflexivity |]. split; [apply refused_ambiguous |].
  cbv zeta. by vm_compute.
Qed.

Lemma timeout_reported_witness :
  let picker := Sample.toggled Sample.unreachable in
  Kernel_getSpecs Sample.unreachable 0 Sample.settings = inl Sample.timeout
  ∧ timed_out Sample.timeout
  ∧ ∃ st',
      onGateway Sample.unreachable Sample.gateway picker = (Normal tt, st')
      ∧ rounds (trace st') = 0
      ∧ discoveries (trace st') = [Sample.settings]
      ∧ reports (trace st') = ["Connection to gateway failed"].
Proof.
  split; [reflexivity |]. split; [apply timeout_timed_out |].
  destruct (timeout_reported Sample.unreachable Sample.gateway
              (Sample.toggled Sample.unreachable) Sample.timeout
              eq_refl timeout_timed_out)
    as (st' & Hrun & _ & Hrounds & Hcalls & Hreports & _).
  exists st'. split; [exact Hrun |]. split; [exact Hrounds |].
  split; [exact Hcalls | exact Hreports].
Defined.

Lemma unstructured_failure_rethrown_witness :
  let picker := Sample.toggled Sample.offline in
  Kernel_getSpecs Sample.offline 0 Sample.settings = inl Sample.down
  ∧ unstructured Sample.down
  ∧ ∃ st',
      onGateway Sample.offline Sample.gateway picker
        = (Thrown Sample.down, st')
      ∧ rounds (trace st') = 0
      ∧ reports (trace st') = []
      ∧ emitted (trace st') = [].
Proof.
  split; [reflexivity |]. split; [reflexivity |].
  destruct (unstructured_failure_rethrown Sample.offline Sample.gateway
              (Sample.toggled Sample.offline) Sample.down eq_refl eq_refl)
    as (st' & Hrun & _ & Hrounds & Hreports & Hemitted & _).
  exists st'. split; [exact Hrun |]. split; [exact Hrounds |].
  split; [exact Hreports | exact Hemitted].
Defined.

(** Listing is refused with status 403 and the one permitted kernel spec is
    [py]: the list offers the item [py], and nothing is reported. *)
Lemma listing_failure_witness :
  let picker := Sample.toggled Sample.hidden in
  _kernelSpecFilter picker = Some (λ spec, Kernel.name spec =? "py")
  ∧ Session_listRunning Sample.hidden 0 Sample.settings = inl Sample.denied
  ∧ forbidden Sample.denied
  ∧ ∃ st',
      resolveSessions Sample.hidden Sample.gateway Sample.settings
        (Some Sample.specs) picker = (Normal tt, st')
      ∧ updates (trace st') =
          [mkProps
             (Some [KernelSpecItem "py"
                      (mkStart Sample.settings "py"
                         (Some "/home/me/a.py-0b3c"))])
             (Text "Select a session") Null
             (Text "No kernel specs available") Absent]
      ∧ reports (trace st') = []
      ∧ onConfirmed st' = StartSession "lab".
Proof.
  split; [reflexivity |]. split; [reflexivity |].
  assert (Hforbidden : forbidden Sample.denied) by (by eexists).
  split; [exact Hforbidden |].
  destruct (listing_failure Sample.hidden Sample.gateway Sample.settings
              (Some Sample.specs) (Sample.toggled Sample.hidden)
              (λ spec, Kernel.name spec =? "py") Sample.specs Sample.denied
              eq_refl eq_refl eq_refl)
    as (st' & Hrun & _ & H403 & _).
  destruct (H403 Hforbidden) as (Hupdates & Hreports & Hhandler & _).
  exists st'. split; [exact Hrun |]. split; [exact Hupdates |].
  split; [exact Hreports | exact Hhandler].
Defined.

(** Listing fails with status 500: the failure is reported and no choice is
    offered. *)
Example listing_broken :
  let collaborators :=
    Sample.env (Some [Sample.gateway]) (λ _, inr Sample.specs)
      (λ _, inl (Sample.failure "Internal Server Error" 500))
      (λ _, Dismiss) (λ _, CancelInput) in
  let st' :=
    snd (onGateway collaborators Sample.gateway
           (Sample.toggled collaborators)) in
  reports (trace st') = ["Connection to gateway failed"]
  ∧ length (updates (trace st')) = 1
  ∧ emitted (trace st') = [].
Proof. by vm_compute. Qed.

(** Sessions on kernels [py] and [r] and one without a kernel, with [py] the
    one permitted kernel spec: the list offers the new session, the [py]
    session and the session without a kernel, in that order. *)
Lemma sessions_offered_witness :
  let picker := Sample.toggled Sample.busy in
  _kernelSpecFilter picker = Some (λ spec, Kernel.name spec =? "py")
  ∧ Session_listRunning Sample.busy 0 Sample.settings = inr Sample.sessions
  ∧ ∃ st',
      resolveSessions Sample.busy Sample.gateway Sample.settings
        (Some Sample.specs) picker = (Normal tt, st')
      ∧ updates (trace st') =
          [mkProps
             (Some [SessionItem (newSession Sample.settings [Sample.py]);
                    sessionItem Sample.busy Sample.settings
                      (Sample.running "a" (Some "py"));
                    sessionItem Sample.busy Sample.settings
                      (Sample.running "c" None)])
             Absent Null Absent Absent].
Proof.
  split; [reflexivity |]. split; [reflexivity |].
  destruct (sessions_offered Sample.busy Sample.gateway Sample.settings
              (Some Sample.specs) (Sample.toggled Sample.busy)
              (λ spec, Kernel.name spec =? "py") Sample.specs Sample.sessions
              eq_refl eq_refl eq_refl)
    as (st' & kept & Hrun & Hupdates & Hkept & _).
  exists st'. split; [exact Hrun |]. rewrite Hupdates, Hkept. reflexivity.
Defined.

(** The same scenario through [onGateway]: the names the list shows. *)
Example sessions_listed :
  let st' :=
    snd (onGateway Sample.busy Sample.gateway (Sample.toggled Sample.busy)) in
  match last (updates (trace st')) ≫= items with
  | Some choices =>
      omap (λ item, match item with
                    | SessionItem info => info_name info
                    | _ => None
                    end) choices
      = ["[new session]"; "/home/me/a.ipynb"; "/home/me/c.ipynb"]
  | None => False
  end.
Proof. by vm_compute. Qed.

Lemma toggle_without_gateways_witness :
  let picker := constructed Sample.unconfigured in
  default [] (Config_gateways Sample.unconfigured) = []
  ∧ ∃ st' description,
      toggle Sample.unconfigured (λ _, true) picker = (Normal tt, st')
      ∧ trace st' =
          [AddError "No remote kernel gateways available" (Some description)]
      ∧ panel st' = false
      ∧ onConfirmed st' = NoConfirm.
Proof.
  split; [reflexivity |].
  destruct (toggle_without_gateways Sample.unconfigured (λ _, true)
              (constructed Sample.unconfigured) eq_refl)
    as (st' & description & Hrun & Htrace & _ & Hpanel & Hhandler).
  exists st', description. split; [exact Hrun |]. split; [exact Htrace |].
  split; [exact Hpanel | exact Hhandler].
Defined.


(** A plain WebSocket address on the default port: the origin is computed
    with [http:]. *)
Example wsFactory_plain :
  call_wsFactory Sample.unconfigured (SameOriginWs "sid=1")
    "ws://localhost/api/kernels/1/channels" ["v1"]
  = Some (Normal (mkWs "ws://localhost/api/kernels/1/channels" ["v1"]
                    (Some {["Cookie" := "sid=1"]})
                    (Some "http://localhost") (Some "localhost"))).
Proof. reflexivity. Qed.

(** The same token typed twice. *)
Lemma promptForToken_idempotent_witness :
  let picker := Sample.toggled Sample.retrying in
  user_input Sample.retrying 1 "Token:" = user_input Sample.retrying 0 "Token:"
  ∧ let once := gatewayOptions (snd (promptForToken Sample.retrying picker)) in
    let twice :=
      gatewayOptions
        (snd ((run promptForToken Sample.retrying;
               promptForToken Sample.retrying) picker)) in
    twice = once ∧ token once = Some "secret".
Proof.
  split; [reflexivity |].
  destruct (promptForToken_idempotent Sample.retrying
              (Sample.toggled Sample.retrying) eq_refl)
    as (Hsame & Htoken & _).
  cbv zeta. split; [exact Hsame | exact Htoken].
Defined.

(** * Further properties *)

(** ** Rules for relating the start and the end of an operation *)

Section Rules.
Context (R : State → State → Prop) `{!PreOrder R}.

Lemma respects_ret {A} (a : A) : respects R (ret a).
Proof. intros st. reflexivity. Qed.

Lemma respects_throw {A} e : respects R (@throw A e).
Proof. intros st. reflexivity. Qed.

Lemma respects_gets {A} (f : State → A) : respects R (gets f).
Proof. intros st. reflexivity. Qed.

Lemma respects_settle {A} (r : Error + A) : respects R (settle r).
Proof. destruct r; intros st; reflexivity. Qed.

Lemma respects_modify f : (∀ st, R st (f st)) → respects R (modify f).
Proof. intros Hf st. apply Hf. Qed.

Lemma respects_bind {A B} (m : M A) (k : A → M B) :
  respects R m → (∀ a, respects R (k a)) → respects R (bind m k).
Proof.
  intros Hm Hk st. unfold bind. specialize (Hm st).
  destruct (m st) as [[a|e] st1]; cbn [snd] in *; [| done].
  etrans; [exact Hm | apply Hk].
Qed.

Lemma respects_try_catch {A} (body : M A) (handler : Error → M A) :
  respects R body → (∀ e, respects R (handler e)) →
  respects R (try_catch body handler).
Proof.
  intros Hm Hk st. unfold try_catch. specialize (Hm st).
  destruct (body st) as [[a|e] st1]; cbn [snd] in *; [done |].
  etrans; [exact Hm | apply Hk].
Qed.
End Rules.

Global Instance adds_preorder P : PreOrder (adds P).
Proof.
  split.
  - intros st. exists []. by rewrite app_nil_r.
  - intros st1 st2 st3 (evs1 & H1 & HP1) (evs2 & H2 & HP2).
    exists (evs1 ++ evs2). rewrite H2, H1, app_assoc. split; [done |].
    by apply Forall_app.
Qed.

Global Instance keeps_balance_preorder : PreOrder keeps_balance.
Proof. split; unfold keeps_balance; [by intros st | intros st1 st2 st3; auto]. Qed.

Global Instance keeps_preorder I : PreOrder (keeps I).
Proof. split; unfold keeps; [by intros st | intros st1 st2 st3; auto]. Qed.

Global Instance unchanged_preorder {A} (part : State → A) :
  PreOrder (unchanged part).
Proof.
  split; [by intros st |].
  unfold unchanged. intros st1 st2 st3 H1 H2. congruence.
Qed.

(** ** The three relations at the steps of the list view *)

Lemma adds_same P st st' : trace st' = trace st → adds P st st'.
Proof. intros Htrace. exists []. by rewrite app_nil_r. Qed.

Lemma adds_event P e st :
  P e → adds P st (with_trace (trace st ++ [e]) st).
Proof. intros He. exists [e]. split; [done |]. by constructor. Qed.

Lemma adds_cancelled P st :
  P PanelDestroy → (∀ element, P (ElementFocus element)) →
  adds P st (cancelled st).
Proof.
  intros Hdestroy Hfocus. exists (cancel_events st). split; [done |].
  unfold cancel_events.
  destruct (panel st), (previouslyFocusedElement st);
    repeat constructor; auto.
Qed.

Lemma adds_shown P st :
  P AddModalPanel → P PanelShow → P ListFocus → adds P st (shown st).
Proof.
  intros Hadd Hshow Hfocus. exists (show_events st). split; [done |].
  unfold show_events. destruct (panel st); repeat constructor; auto.
Qed.

Lemma created_app t1 t2 : created (t1 ++ t2) = created t1 + created t2.
Proof. unfold created. by rewrite omap_app, length_app. Qed.

Lemma destroyed_app t1 t2 :
  destroyed (t1 ++ t2) = destroyed t1 + destroyed t2.
Proof. unfold destroyed. by rewrite omap_app, length_app. Qed.

Lemma balance_same st st' :
  trace st' = trace st → panel st' = panel st → keeps_balance st st'.
Proof.
  intros Htrace Hpanel. unfold keeps_balance, balanced.
  by rewrite Htrace, Hpanel.
Qed.

Lemma balance_event e st :
  e ≠ AddModalPanel → e ≠ PanelDestroy →
  keeps_balance st (with_trace (trace st ++ [e]) st).
Proof.
  unfold keeps_balance, balanced. intros Hadd Hdestroy Hst.
  change (trace (with_trace ?t _)) with t.
  change (panel (with_trace _ ?s)) with (panel s).
  rewrite created_app, destroyed_app, Hst.
  destruct e; cbn; try lia; done.
Qed.

Lemma balance_cancelled st : keeps_balance st (cancelled st).
Proof.
  unfold keeps_balance, balanced. intros Hst.
  change (trace (cancelled st)) with (trace st ++ cancel_events st).
  change (panel (cancelled st)) with false.
  rewrite created_app, destroyed_app, Hst. unfold cancel_events.
  destruct (panel st), (previouslyFocusedElement st); cbn; lia.
Qed.

Lemma balance_shown st : keeps_balance st (shown st).
Proof.
  unfold keeps_balance, balanced. intros Hst.
  change (trace (shown st)) with (trace st ++ show_events st).
  change (panel (shown st)) with true.
  rewrite created_app, destroyed_app, Hst. unfold show_events.
  destruct (panel st); cbn; lia.
Qed.

(** ** Walking through an operation *)

Ltac head_of m :=
  lazymatch m with
  | ?f _ _ _ _ _ => f
  | ?f _ _ _ _ => f
  | ?f _ _ _ => f
  | ?f _ _ => f
  | ?f _ => f
  | ?f => f
  end.

(** [walk atom] goes through the binds, handlers and branches of an
    operation; [atom] proves the relation for one change of the state. *)
Ltac walk atom :=
  repeat
    lazymatch goal with
    | |- PreOrder _ => apply _
    | |- respects _ (ret _) => apply respects_ret
    | |- respects _ (throw _) => apply respects_throw
    | |- respects _ (gets _) => apply respects_gets
    | |- respects _ (settle _) => apply respects_settle
    | |- respects _ (bind _ _) => apply respects_bind; [idtac .. | idtac | intros ?]
    | |- respects _ (try_catch _ _) =>
        apply respects_try_catch; [idtac .. | idtac | intros ?]
    | |- respects _ (modify _) =>
        apply respects_modify; intros ?; atom
    | |- respects _ (emit _) =>
        unfold emit; apply respects_modify; intros ?; atom
    | |- respects _ listView_cancel =>
        intros ?; rewrite listView_cancel_run; cbn [snd]; atom
    | |- respects _ listView_show =>
        intros ?; rewrite listView_show_run; cbn [snd]; atom
    | |- respects _ (onSession _ _ (newSession _ _)) =>
        intros ?; rewrite onSession_new; cbn [snd]; unfold presenting; atom
    | |- respects _ (match ?x with _ => _ end) => destruct x
    | |- respects _ (let _ := _ in _) => cbv zeta
    | |- respects _ ?m => let h := head_of m in unfold h
    end.

(** One change of the state adds only calls that satisfy the predicate. *)
Ltac adds_atom :=
  first
    [ apply adds_cancelled; cbn; done
    | apply adds_shown; cbn; done
    | apply adds_same; reflexivity
    | apply adds_event; cbn; done
    | etrans; [apply adds_event | apply adds_same; reflexivity]; cbn; done ].

(** One change of the state keeps the panel bookkeeping. *)
Ltac balance_atom :=
  first
    [ apply balance_cancelled
    | apply balance_shown
    | apply balance_same; reflexivity
    | apply balance_event; discriminate
    | etrans; [apply balance_event | apply balance_same; reflexivity];
      discriminate ].

(** One change of the state leaves a part of it alone. *)
Ltac unchanged_atom := reflexivity.

(** One change of the state keeps a property that can be read off it. *)
Ltac keeps_atom := unfold keeps, bound_to; cbn; auto.

(** ** What the operations never do *)

Section Never.
Variable env : Env.

Lemma browsing_silent evs :
  Forall browsing evs →
  emitted evs = [] ∧ connections evs = [] ∧ starts evs = []
  ∧ Forall (λ props, errorMessage props = Absent) (updates evs).
Proof.
  induction 1 as [|e evs He _ (IH1 & IH2 & IH3 & IH4)]; [done |].
  destruct e; cbn in *; try done. repeat split; try done.
  by constructor.
Qed.

(** X1: opening the picker, negotiating credentials and choosing a gateway
    never attach to or start a session, never ask a session for its kernel
    spec, never hand a kernel to [onChosen], and never send the select list
    an error message; in particular the message that the gateway does not
    list sessions is never shown on the way through [onGateway], which names
    every new-session entry it passes on. *)
Theorem browsing_only filter gatewayInfo st :
  let st' := snd (onGateway env gatewayInfo st) in
  adds browsing st (snd (toggle env filter st))
  ∧ adds browsing st (snd (promptForCredentials env st))
  ∧ adds browsing st st'
  ∧ emitted (trace st') = emitted (trace st)
  ∧ connections (trace st') = connections (trace st)
  ∧ starts (trace st') = starts (trace st).
Proof.
  assert (H1 : respects (adds browsing) (toggle env filter))
    by walk adds_atom.
  assert (H2 : respects (adds browsing) (promptForCredentials env))
    by walk adds_atom.
  assert (H3 : respects (adds browsing) (onGateway env gatewayInfo))
    by walk adds_atom.
  cbv zeta. split; [apply H1 |]. split; [apply H2 |]. split; [apply H3 |].
  destruct (H3 st) as (evs & -> & Hevs).
  destruct (browsing_silent evs Hevs) as (He & Hc & Hs & _).
  unfold emitted, connections, starts in *. rewrite !omap_app.
  by rewrite He, Hc, Hs, !app_nil_r.
Qed.

(** X2: no operation loses track of a panel.  When the [panel] field tells
    whether a created panel has yet to be destroyed, it still does after
    opening the picker, after a text prompt, after a negotiation round, after
    choosing a gateway, after confirming a session entry, after starting a
    session and after completing one, whether the operation returns or
    throws. *)
Theorem panels_balanced filter gatewayInfo gatewayName sessionInfo options
    session prompt st :
  balanced st →
  balanced (snd (toggle env filter st))
  ∧ balanced (snd (promptForText env prompt st))
  ∧ balanced (snd (promptForCredentials env st))
  ∧ balanced (snd (onGateway env gatewayInfo st))
  ∧ balanced (snd (onSession env gatewayName sessionInfo st))
  ∧ balanced (snd (startSession env gatewayName options st))
  ∧ balanced (snd (onSessionChosen env gatewayName session st)).
Proof.
  intros Hst.
  assert (H1 : respects keeps_balance (toggle env filter))
    by walk balance_atom.
  assert (H2 : respects keeps_balance (promptForText env prompt))
    by walk balance_atom.
  assert (H3 : respects keeps_balance (promptForCredentials env))
    by walk balance_atom.
  assert (H4 : respects keeps_balance (onGateway env gatewayInfo))
    by walk balance_atom.
  assert (H5 : respects keeps_balance
                 (onSession env gatewayName sessionInfo))
    by walk balance_atom.
  assert (H6 : respects keeps_balance
                 (startSession env gatewayName options))
    by walk balance_atom.
  assert (H7 : respects keeps_balance
                 (onSessionChosen env gatewayName session))
    by walk balance_atom.
  repeat split; [apply H1 | apply H2 | apply H3 | apply H4 | apply H5
                | apply H6 | apply H7]; exact Hst.
Qed.
End Never.

(** ** The list view and the prompts *)

Section ListView.
Variable env : Env.

(** X3: closing the list twice is closing it once, and showing it twice
    creates one panel. *)
Theorem listView_cancel_show_twice st :
  (run listView_cancel; listView_cancel) st = listView_cancel st
  ∧ ∃ st',
      (run listView_show; listView_show) st = (Normal tt, st')
      ∧ trace st' = trace st ++ show_events st ++ [PanelShow; ListFocus]
      ∧ created (trace st') = created (trace st) + (if panel st then 0 else 1)
      ∧ panel st' = true.
Proof.
  split.
  - unfold bind. rewrite !listView_cancel_run.
    destruct st as [f p oc ocl focused pan o c t]. unfold cancelled. cbn.
    by rewrite app_nil_r.
  - unfold bind. rewrite !listView_show_run. eexists. split; [reflexivity |].
    change (trace (shown (shown st)))
      with ((trace st ++ show_events st) ++ [PanelShow; ListFocus]).
    rewrite <- app_assoc. split; [done |]. split; [| done].
    rewrite !created_app. unfold show_events. by destruct (panel st).
Qed.

(** X4: [promptForText] closes the list, attaches one input view, and answers
    with the text only when one was typed; then the list is shown again on
    a new panel and the remembered focus is restored.  After a cancelled or
    empty input the list stays closed and the remembered focus is gone. *)
Theorem promptForText_outcome prompt st :
  let answer := user_input env (input_calls (calls st)) prompt in
  let result := promptForText env prompt st in
  let st' := snd result in
  fst result =
    Normal match answer with
           | Submit text => if text =? "" then None else Some text
           | CancelInput => None
           end
  ∧ trace st' =
      trace st ++ cancel_events st ++ [InputAttach prompt]
      ++ (if answered answer then [AddModalPanel; PanelShow; ListFocus]
          else [])
  ∧ panel st' = answered answer
  ∧ previouslyFocusedElement st' =
      (if answered answer then previouslyFocusedElement st else None)
  ∧ gatewayOptions st' = gatewayOptions st
  ∧ onConfirmed st' = onConfirmed st.
Proof.
  cbv zeta. rewrite promptForText_run. cbv zeta.
  destruct st as [f p oc ocl focused pan o c t].
  destruct (user_input env _ _) as [text|]; cbn [answered];
    [destruct (text =? "") |]; cbn; rewrite <- ?app_assoc, ?app_nil_r;
    done.
Qed.
End ListView.

(** ** Negotiating credentials *)

Section Negotiation.
Variable env : Env.

(** X5: a negotiation round succeeds exactly when the user confirmed the
    token or the cookie strategy and typed a text for it.  A round that does
    not succeed leaves the options as they were, and an explicit cancel or a
    dismissed list attaches no input view and leaves the list closed. *)
Theorem promptForCredentials_outcome st :
  let choice := user_choice env (choice_calls (calls st)) in
  let n := input_calls (calls st) in
  let result := promptForCredentials env st in
  let st' := snd result in
  (fst result = Normal true ↔
     choice = ConfirmToken ∧ answered (user_input env n "Token:") = true
     ∨ choice = ConfirmCookie ∧ answered (user_input env n "Cookie:") = true)
  ∧ (fst result = Normal true ∨ fst result = Normal false)
  ∧ (fst result = Normal false → gatewayOptions st' = gatewayOptions st)
  ∧ (choice = ConfirmCancel ∨ choice = Dismiss →
       fst result = Normal false
       ∧ input_calls (calls st') = n
       ∧ panel st' = false
       ∧ previouslyFocusedElement st' = None).
Proof.
  cbv zeta. rewrite promptForCredentials_run. cbv zeta.
  change (input_calls (calls st)) with (input_calls (calls (awaiting st))).
  change (gatewayOptions st) with (gatewayOptions (awaiting st)).
  destruct (user_choice env _).
  - rewrite promptForToken_run. cbv zeta. cbn [fst snd].
    destruct (user_input env _ "Token:") as [text|]; cbn;
      [destruct (text =? "") |]; cbn;
      intuition (discriminate || congruence || eauto).
  - rewrite promptForCookie_run. cbv zeta. cbn [fst snd].
    destruct (user_input env _ "Cookie:") as [text|]; cbn;
      [destruct (text =? "") |]; cbn;
      intuition (discriminate || congruence || eauto).
  - cbn. intuition (discriminate || congruence || eauto).
  - cbn. intuition (discriminate || congruence || eauto).
Qed.

Lemma with_token_with_cookie value cookie o :
  with_token value (with_cookie cookie o)
  = with_cookie cookie (with_token value o).
Proof. reflexivity. Qed.

Lemma with_cookie_twice first second o :
  with_cookie second (with_cookie first o) = with_cookie second o.
Proof.
  unfold with_cookie, headers. destruct o as [b tk h x w ot]. cbn.
  by rewrite insert_insert_eq.
Qed.

Lemma prompted_calls prompt answer st :
  input_calls (calls (prompted prompt answer st)) = S (input_calls (calls st)).
Proof. unfold prompted. by destruct (answered answer). Qed.

(** X6: the two strategies do not undo each other.  When a cookie is typed
    and then a token, or a token and then a cookie, the options end with the
    token, the [Cookie] header and both of the cookie's transport factories,
    and the two orders give the same options. *)
Theorem strategies_compose cookie value st :
  let n := input_calls (calls st) in
  cookie ≠ "" → value ≠ "" →
  user_input env n "Cookie:" = Submit cookie →
  user_input env (S n) "Token:" = Submit value →
  user_input env n "Token:" = Submit value →
  user_input env (S n) "Cookie:" = Submit cookie →
  let cookie_first :=
    gatewayOptions
      (snd ((run promptForCookie env; promptForToken env) st)) in
  let token_first :=
    gatewayOptions
      (snd ((run promptForToken env; promptForCookie env) st)) in
  cookie_first
    = with_token (Some value) (with_cookie cookie (gatewayOptions st))
  ∧ token_first = cookie_first
  ∧ token cookie_first = Some value
  ∧ headers cookie_first !! "Cookie" = Some cookie
  ∧ xhrFactory cookie_first = Some HeaderCheckDisabledXhr
  ∧ wsFactory cookie_first = Some (SameOriginWs cookie).
Proof.
  intros n Hcookie Hvalue Hc0 Ht1 Ht0 Hc1. cbv zeta. unfold bind.
  rewrite promptForCookie_run, promptForToken_run. cbv zeta.
  rewrite promptForToken_run, promptForCookie_run. cbv zeta. cbn [snd].
  change (calls (with_options _ ?s)) with (calls s).
  change (gatewayOptions (with_options ?o _)) with o.
  rewrite !prompted_calls. fold n. rewrite Hc0, Ht1, Ht0, Hc1.
  apply String.eqb_neq in Hcookie, Hvalue.
  cbn [token_applied cookie_applied]. rewrite Hcookie, Hvalue.
  repeat split. unfold headers. cbn. by rewrite lookup_insert_eq.
Qed.

(** X7: a credential typed later replaces the one typed before and leaves
    nothing of it: after two cookies the [Cookie] header and the WebSocket
    factory both hold the second cookie, and after two tokens the token is
    the second one; the options are those of typing the later one alone. *)
Theorem later_credential_wins first second st :
  let n := input_calls (calls st) in
  first ≠ "" → second ≠ "" →
  (user_input env n "Cookie:" = Submit first →
   user_input env (S n) "Cookie:" = Submit second →
   let o' :=
     gatewayOptions
       (snd ((run promptForCookie env; promptForCookie env) st)) in
   o' = with_cookie second (gatewayOptions st)
   ∧ headers o' !! "Cookie" = Some second
   ∧ wsFactory o' = Some (SameOriginWs second))
  ∧ (user_input env n "Token:" = Submit first →
     user_input env (S n) "Token:" = Submit second →
     gatewayOptions
       (snd ((run promptForToken env; promptForToken env) st))
     = with_token (Some second) (gatewayOptions st)).
Proof.
  intros n Hfirst Hsecond. apply String.eqb_neq in Hfirst, Hsecond.
  split; intros H0 H1; cbv zeta; unfold bind.
  - rewrite promptForCookie_run. cbv zeta. rewrite promptForCookie_run.
    cbv zeta. cbn [snd].
    change (calls (with_options _ ?s)) with (calls s).
    change (gatewayOptions (with_options ?o _)) with o.
    rewrite !prompted_calls. fold n. rewrite H0, H1.
    cbn [cookie_applied]. rewrite Hfirst, Hsecond. cbv beta iota.
    cbn [gatewayOptions with_options]. rewrite with_cookie_twice.
    repeat split. unfold headers. cbn. by rewrite lookup_insert_eq.
  - rewrite promptForToken_run. cbv zeta. rewrite promptForToken_run.
    cbv zeta. cbn [snd].
    change (calls (with_options _ ?s)) with (calls s).
    change (gatewayOptions (with_options ?o _)) with o.
    rewrite !prompted_calls. fold n. rewrite H0, H1.
    cbn [token_applied]. by rewrite Hfirst, Hsecond.
Qed.
End Negotiation.

(** ** Opening the picker with gateways *)

Section Opening.
Variable env : Env.

(** X8: with at least one configured gateway, [toggle] stores the filter,
    draws one fresh identifier for the session path, which starts with the
    document's path or with [unsaved] when there is none, offers the gateways
    in their configured order with [onGateway] as the handler, shows the
    list, and reports nothing. *)
Theorem toggle_opens_chooser filter st gateway gateways :
  Config_gateways env = Some (gateway :: gateways) →
  ∃ st',
    toggle env filter st = (Normal tt, st')
    ∧ updates (trace st') =
        updates (trace st)
        ++ [mkProps (Some (map GatewayItem (gateway :: gateways)))
              (Text "Select a gateway") Null (Text "No gateways available")
              Absent]
    ∧ reports (trace st') = reports (trace st)
    ∧ onConfirmed st' = OnGateway
    ∧ _kernelSpecFilter st' = Some filter
    ∧ panel st' = true
    ∧ _path st' =
        Some (match store_filePath env with
              | Some file => if file =? "" then "unsaved" else file
              | None => "unsaved"
              end +:+ "-" +:+ v4 env (v4_calls (calls st)))
    ∧ v4_calls (calls st') = S (v4_calls (calls st)).
Proof.
  intros Hconfig. unfold toggle. rewrite Hconfig.
  destruct st as [f p oc ocl focused pan o c t].
  cbn [default]. rewrite bool_decide_eq_false_2 by discriminate.
  unfold v4_call, emit, bind, modify, gets, ret.
  cbn -[listView_show String.append].
  rewrite listView_show_run. eexists. split; [reflexivity |].
  unfold shown, show_events. cbn -[String.append].
  rewrite <- !app_assoc, updates_app, reports_app.
  destruct pan, (store_filePath env) as [file|];
    cbn -[String.append]; rewrite ?app_nil_r; try done;
    destruct (file =? ""); done.
Qed.
End Opening.

(** ** Choosing a gateway *)

Section Choosing.
Variable env : Env.

Lemma seedOptions_fields gatewayInfo :
  let given := gateway_options gatewayInfo in
  let seed := seedOptions gatewayInfo in
  baseUrl seed = baseUrl given
  ∧ token seed = token given
  ∧ requestHeaders seed = requestHeaders given
  ∧ others seed = others given
  ∧ xhrFactory seed = Some (default DefaultXhr (xhrFactory given))
  ∧ wsFactory seed = Some (default DefaultWs (wsFactory given)).
Proof.
  cbv zeta. unfold seedOptions, spread. cbn.
  destruct (gateway_options gatewayInfo) as [b tk h x w ot]. cbn.
  rewrite (right_id_L ∅ (∪)). by destruct b, tk, h, x, w.
Qed.

(** The second block makes its calls with the settings it was handed. *)
Lemma resolveSessions_uses gatewayInfo serverSettings specModels :
  respects (adds (uses serverSettings))
    (resolveSessions env gatewayInfo serverSettings specModels).
Proof. walk adds_atom. Qed.

Lemma resolveSessions_options gatewayInfo serverSettings specModels :
  respects (unchanged gatewayOptions)
    (resolveSessions env gatewayInfo serverSettings specModels).
Proof. walk unchanged_atom. Qed.

Lemma resolveSessions_inputs gatewayInfo serverSettings specModels :
  respects (unchanged (λ st, input_calls (calls st)))
    (resolveSessions env gatewayInfo serverSettings specModels).
Proof. walk unchanged_atom. Qed.

(** X9: when the first discovery call succeeds, [onGateway] returns without
    asking for credentials or attaching an input view; it makes that one
    discovery call, every call it makes to the gateway uses the settings
    built from the gateway's own options with the default transport
    factories filled in where the options give none, and the options object
    is left at exactly those options. *)
Theorem first_discovery_succeeds gatewayInfo st specModels :
  let first := makeSettings (seedOptions gatewayInfo) in
  Kernel_getSpecs env (getSpecs_calls (calls st)) first = inr specModels →
  let given := gateway_options gatewayInfo in
  let result := onGateway env gatewayInfo st in
  let st' := snd result in
  fst result = Normal tt
  ∧ rounds (trace st') = rounds (trace st)
  ∧ input_calls (calls st') = input_calls (calls st)
  ∧ discoveries (trace st') = discoveries (trace st) ++ [first]
  ∧ adds (uses first) st st'
  ∧ gatewayOptions st' = seedOptions gatewayInfo
  ∧ baseUrl (gatewayOptions st') = baseUrl given
  ∧ token (gatewayOptions st') = token given
  ∧ requestHeaders (gatewayOptions st') = requestHeaders given
  ∧ others (gatewayOptions st') = others given
  ∧ xhrFactory (gatewayOptions st')
    = Some (default DefaultXhr (xhrFactory given))
  ∧ wsFactory (gatewayOptions st')
    = Some (default DefaultWs (wsFactory given)).
Proof.
  intros first Hfirst. cbv zeta. rewrite onGateway_run. cbv zeta.
  fold first. rewrite Hfirst.
  destruct (discovering_footprint gatewayInfo st)
    as (Hn1 & Hd1 & _ & _ & _ & _ & Ho1).
  pose proof (resolveSessions_footprint env gatewayInfo first
                (Some specModels) (discovering gatewayInfo st)) as Hres.
  cbv zeta in Hres. destruct Hres as (Hret & Hn & _ & Hd).
  pose proof (resolveSessions_uses gatewayInfo first (Some specModels)
                (discovering gatewayInfo st)) as Huses.
  pose proof (resolveSessions_options gatewayInfo first (Some specModels)
                (discovering gatewayInfo st)) as Hoptions.
  pose proof (resolveSessions_inputs gatewayInfo first (Some specModels)
                (discovering gatewayInfo st)) as Hinputs.
  unfold unchanged in Hoptions, Hinputs.
  split; [done |]. split; [lia |]. split; [by rewrite Hinputs |].
  split; [by rewrite Hd, Hd1, app_nil_r |]. split.
  { etrans; [| exact Huses].
    exists [Update loadingSessions; GetSpecs first]. split; [done |].
    by repeat constructor. }
  rewrite Hoptions, Ho1. split; [done |]. apply seedOptions_fields.
Qed.

(** Every failure is of exactly one of the three kinds. *)
Lemma failure_kinds error :
  (unstructured error ∧ ¬ timed_out error ∧ ¬ ambiguous error)
  ∨ (timed_out error ∧ ¬ unstructured error ∧ ¬ ambiguous error)
  ∨ (ambiguous error ∧ ¬ unstructured error ∧ ¬ timed_out error).
Proof.
  unfold unstructured, timed_out, ambiguous.
  destruct (payload error) as [text|] eqn:Hpayload.
  - destruct (includes text "ETIMEDOUT") eqn:Hin.
    + right; left. apply timeout_indicator_includes in Hin.
      split; [eauto |]. split; [done |].
      intros (text' & [= <-] & Hnot). done.
    + right; right. apply not_true_iff_false in Hin.
      rewrite <- timeout_indicator_includes in Hin.
      split; [eauto |]. split; [done |].
      intros (text' & [= <-] & Hyes). done.
  - left. split; [done |].
    split; intros (text & Htext & _); discriminate.
Qed.

(** X10: [onGateway] throws in one case only: the first discovery call
    failed without a structured payload, and then it throws that failure.
    Every other failure, of discovery, of the retried discovery or of the
    listing, ends in a normal return. *)
Theorem onGateway_throws_iff gatewayInfo st e :
  fst (onGateway env gatewayInfo st) = Thrown e
  ↔ Kernel_getSpecs env (getSpecs_calls (calls st))
      (makeSettings (seedOptions gatewayInfo)) = inl e
    ∧ unstructured e.
Proof.
  rewrite onGateway_run. cbv zeta.
  destruct (Kernel_getSpecs env _ _) as [error|specModels].
  - destruct (failure_kinds error)
      as [(Hkind & _) | [(Hkind & Hnot & _) | (Hkind & Hnot & _)]].
    + rewrite onDiscoveryError_unstructured by done. cbn [fst].
      split; [intros [= ->]; done | intros [[= ->] _]; done].
    + rewrite onDiscoveryError_timed_out by done. cbn [fst].
      split; [done | intros [[= ->] ?]; done].
    + rewrite onDiscoveryError_ambiguous by done.
      pose proof (promptForCredentials_footprint env
                    (discovering gatewayInfo st)) as Hneg.
      cbv zeta in Hneg. destruct Hneg as ([ok Hok] & _).
      destruct (promptForCredentials env _) as [[[]|e'] st2];
        cbn [fst] in *; [| | done].
      * pose proof (resolveSessions_footprint env gatewayInfo
                      (makeSettings (gatewayOptions st2)) None
                      (with_trace (trace st2 ++ [Update loadingSessions])
                         st2)) as Hres.
        cbv zeta in Hres. destruct Hres as (-> & _).
        split; [done | intros [[= ->] ?]; done].
      * split; [done | intros [[= ->] ?]; done].
  - pose proof (resolveSessions_footprint env gatewayInfo
                  (makeSettings (seedOptions gatewayInfo)) (Some specModels)
                  (discovering gatewayInfo st)) as Hres.
    cbv zeta in Hres. destruct Hres as (-> & _).
    split; [done | intros [? _]; done].
Qed.

(** X11: whatever happens in [onGateway], the handler it leaves behind is
    never the gateway handler and never a session handler of another
    gateway: it is unset, or the resolver of the credential choice, or
    [onSession] or [startSession] bound to the name of this gateway. *)
Theorem onGateway_handler gatewayInfo st :
  bound_to (gateway_name gatewayInfo) (snd (onGateway env gatewayInfo st)).
Proof.
  assert (Hkeeps :
    respects (keeps (bound_to (gateway_name gatewayInfo)))
      (onGateway env gatewayInfo)) by walk keeps_atom.
  assert (Hreset :
    onGateway env gatewayInfo st
    = onGateway env gatewayInfo (with_onConfirmed NoConfirm st)).
  { by destruct st. }
  rewrite Hreset. by apply Hkeeps.
Qed.
End Choosing.

(** ** Listing and completing sessions *)

Section Sessions.
Variable env : Env.

(** X12: the second block never throws.  It reports at most one failure, and
    when it reports one it closes the list, offers nothing more and leaves
    the handler as it was. *)
Theorem resolveSessions_contains_failures gatewayInfo serverSettings
    specModels st :
  let result :=
    resolveSessions env gatewayInfo serverSettings specModels st in
  let st' := snd result in
  fst result = Normal tt
  ∧ (reports (trace st') = reports (trace st)
     ∨ reports (trace st') =
         reports (trace st) ++ ["Connection to gateway failed"]
       ∧ updates (trace st') = updates (trace st)
       ∧ panel st' = false
       ∧ onConfirmed st' = onConfirmed st).
Proof.
  cbv zeta. rewrite resolveSessions_run. cbv zeta.
  set (st1 := resolving serverSettings specModels st).
  assert (Hst1 :
    reports (trace st1) = reports (trace st)
    ∧ updates (trace st1) = updates (trace st)
    ∧ onConfirmed st1 = onConfirmed st).
  { destruct (resolving_silent serverSettings specModels st)
      as (Hu & Hr & _). subst st1. by destruct specModels. }
  destruct Hst1 as (Hr1 & Hu1 & Hc1).
  assert (Hfailed : ∀ st2,
    reports (trace st2) = reports (trace st) →
    updates (trace st2) = updates (trace st) →
    onConfirmed st2 = onConfirmed st →
    reports (trace (failed st2)) =
      reports (trace st) ++ ["Connection to gateway failed"]
    ∧ updates (trace (failed st2)) = updates (trace st)
    ∧ panel (failed st2) = false
    ∧ onConfirmed (failed st2) = onConfirmed st).
  { intros st2 Hr2 Hu2 Hc2.
    destruct (failed_footprint st2) as (_ & _ & _ & -> & _ & -> & ->).
    by rewrite Hr2, Hu2. }
  destruct (specsFor env st serverSettings specModels) as [error|discovered].
  { cbn [fst snd]. split; [done |]. right. by apply Hfailed. }
  destruct (filterSpecs _ st1) as [[kernelSpecs|error] stx].
  2: { cbn [fst snd]. split; [done |]. right. by apply Hfailed. }
  rewrite listSessions_run. cbv zeta.
  assert (Hlisting :
    reports (trace (listing serverSettings st1)) = reports (trace st)
    ∧ updates (trace (listing serverSettings st1)) = updates (trace st)
    ∧ onConfirmed (listing serverSettings st1) = onConfirmed st).
  { cbn [listing trace with_trace with_calls onConfirmed].
    rewrite reports_app, updates_app, Hr1, Hu1, Hc1. cbn.
    by rewrite !app_nil_r. }
  destruct Hlisting as (Hr2 & Hu2 & Hc2).
  destruct (Session_listRunning env _ _) as [error|sessionModels].
  - destruct (xhr error) as [x|].
    + destruct (status x =? 403)%Z.
      * rewrite onSession_new. cbn [fst snd]. split; [done |]. left.
        unfold presenting. cbn [trace with_trace with_onConfirmed].
        rewrite reports_app, Hr2. cbn. by rewrite app_nil_r.
      * cbn [fst snd]. split; [done |]. right. by apply Hfailed.
    + cbn [fst snd]. split; [done |]. right. by apply Hfailed.
  - cbn [fst snd]. split; [done |]. left.
    unfold presenting. cbn [trace with_trace with_onConfirmed].
    rewrite reports_app, Hr2. cbn. by rewrite app_nil_r.
Qed.

Lemma connections_app t1 t2 :
  connections (t1 ++ t2) = connections t1 ++ connections t2.
Proof. apply omap_app. Qed.

Lemma starts_app t1 t2 : starts (t1 ++ t2) = starts t1 ++ starts t2.
Proof. apply omap_app. Qed.

(** What [onSessionChosen] does, by the answer to the kernel-spec request
    and the grammar of the document. *)
Lemma onSessionChosen_run gatewayName session st :
  onSessionChosen env gatewayName session st =
    let st1 :=
      with_trace (trace (cancelled st) ++ [GetSpec session]) (cancelled st) in
    match kernel_getSpec env session with
    | inl e => (Thrown e, st1)
    | inr kernelSpec =>
        match store_grammar env with
        | None => (Normal tt, st1)
        | Some grammar =>
            (Normal tt,
             with_trace
               (trace st1
                ++ [Chosen (mkKernel gatewayName kernelSpec grammar session)])
               st1)
        end
    end.
Proof.
  unfold onSessionChosen, bind at 1. rewrite listView_cancel_run.
  unfold kernel_getSpec_call, emit, bind, modify. cbv zeta.
  destruct (kernel_getSpec env session) as [e|kernelSpec]; [done |].
  cbn [settle ret]. by destruct (store_grammar env).
Qed.

(** [onSessionChosen] after a call that recorded nothing but itself. *)
Lemma onSessionChosen_completed gatewayName session st e :
  reports [e] = [] → emitted [e] = [] →
  completed env gatewayName session st
    (onSessionChosen env gatewayName session
       (with_trace (trace st ++ [e]) st)).
Proof.
  intros Hreports Hemitted. rewrite onSessionChosen_run. cbv zeta.
  unfold completed. cbv zeta.
  destruct (cancel_events_silent st) as (_ & Hr & _ & _ & He & _).
  destruct (kernel_getSpec env session) as [err|kernelSpec];
    [| destruct (store_grammar env) as [grammar|]]; cbn [fst snd];
    cbn [trace panel with_trace cancelled with_focused with_panel];
    change (cancel_events (with_trace _ ?s)) with (cancel_events s);
    rewrite !reports_app, !emitted_app, Hreports, Hemitted, Hr, He;
    cbn; rewrite ?app_nil_r; done.
Qed.

Lemma onSessionWithModel_run gatewayName model serverSettings st :
  onSessionWithModel env gatewayName model serverSettings st =
    let st1 :=
      with_trace (trace st ++ [ConnectTo (Session.id model) serverSettings])
        st in
    match Session_connectTo env (Session.id model) serverSettings with
    | inl e => (Thrown e, st1)
    | inr session => onSessionChosen env gatewayName session st1
    end.
Proof.
  unfold onSessionWithModel, Session_connectTo_call, bind, emit, modify.
  cbv zeta. by destruct (Session_connectTo env _ _).
Qed.

Lemma startSession_run gatewayName options st :
  startSession env gatewayName options st =
    let st1 := with_trace (trace st ++ [StartNew options]) st in
    match Session_startNew env options with
    | inl e => (Thrown e, st1)
    | inr session => onSessionChosen env gatewayName session st1
    end.
Proof.
  unfold startSession, Session_startNew_call, bind, emit, modify.
  cbv zeta. by destruct (Session_startNew env _).
Qed.

(** The calls [onSessionChosen] adds to a state that differs from [st] by
    one recorded call. *)
Lemma onSessionChosen_calls gatewayName session st e :
  updates [e] = [] →
  let st' :=
    snd (onSessionChosen env gatewayName session
           (with_trace (trace st ++ [e]) st)) in
  connections (trace st') = connections (trace st) ++ connections [e]
  ∧ starts (trace st') = starts (trace st) ++ starts [e]
  ∧ updates (trace st') = updates (trace st).
Proof.
  intros Hupdates. cbv zeta. rewrite onSessionChosen_run. cbv zeta.
  destruct (kernel_getSpec env session) as [err|kernelSpec];
    [| destruct (store_grammar env) as [grammar|]]; cbn [snd];
    cbn [trace panel with_trace cancelled with_focused with_panel];
    change (cancel_events (with_trace _ ?s)) with (cancel_events s);
    rewrite !connections_app, !starts_app, !updates_app, Hupdates;
    unfold cancel_events;
    destruct (panel st), (previouslyFocusedElement st); cbn;
    by rewrite ?app_nil_r.
Qed.

(** X13: confirming a running session connects to that session, by its
    identifier and with the settings it was listed with, and starts none.
    When the connection fails, the chain of calls ends with that failure:
    the list stays open and nothing is reported.  When it succeeds the list
    is closed and the kernel is handed to [onChosen] under the gateway's
    name, provided the session tells its kernel spec and the document has a
    grammar. *)
Theorem attach_session gatewayName name model serverSettings kernelSpecs st :
  let sessionInfo := mkInfo name (Some model) serverSettings kernelSpecs in
  let id := Session.id model in
  let result := onSession env gatewayName sessionInfo st in
  let st' := snd result in
  connections (trace st') = connections (trace st) ++ [(id, serverSettings)]
  ∧ starts (trace st') = starts (trace st)
  ∧ updates (trace st') = updates (trace st)
  ∧ (∃ shown,
       sessionItem env serverSettings model
       = SessionItem (mkInfo (Some shown) (Some model) serverSettings None))
  ∧ match Session_connectTo env id serverSettings with
    | inl e =>
        result
        = (Thrown e, with_trace (trace st ++ [ConnectTo id serverSettings]) st)
    | inr session => completed env gatewayName session st result
    end.
Proof.
  cbv zeta. unfold onSession. cbn [info_model info_options].
  rewrite onSessionWithModel_run. cbv zeta.
  assert (Hlisted : ∃ shown,
    sessionItem env serverSettings model
    = SessionItem (mkInfo (Some shown) (Some model) serverSettings None))
    by (unfold sessionItem; eauto).
  destruct (Session_connectTo env _ _) as [e|session].
  - cbn [fst snd trace with_trace].
    rewrite connections_app, starts_app, updates_app. cbn.
    by rewrite !app_nil_r.
  - pose proof (onSessionChosen_calls gatewayName session st
                  (ConnectTo (Session.id model) serverSettings) eq_refl)
      as Hcalls. cbv zeta in Hcalls. destruct Hcalls as (-> & -> & ->).
    cbn. rewrite app_nil_r. split; [done |]. split; [done |].
    split; [done |]. split; [exact Hlisted |].
    by apply onSessionChosen_completed.
Qed.

(** X14: confirming a kernel spec starts one session with the options of
    the confirmed item and connects to none.  When the start fails, the
    chain of calls ends with that failure: the list stays open and nothing
    is reported.  When it succeeds the list is closed and the kernel is
    handed to [onChosen] under the gateway's name, provided the session
    tells its kernel spec and the document has a grammar. *)
Theorem start_session gatewayName options st :
  let result := startSession env gatewayName options st in
  let st' := snd result in
  starts (trace st') = starts (trace st) ++ [options]
  ∧ connections (trace st') = connections (trace st)
  ∧ updates (trace st') = updates (trace st)
  ∧ match Session_startNew env options with
    | inl e =>
        result = (Thrown e, with_trace (trace st ++ [StartNew options]) st)
    | inr session => completed env gatewayName session st result
    end.
Proof.
  cbv zeta. rewrite startSession_run. cbv zeta.
  destruct (Session_startNew env _) as [e|session].
  - cbn [fst snd trace with_trace].
    rewrite connections_app, starts_app, updates_app. cbn.
    by rewrite !app_nil_r.
  - pose proof (onSessionChosen_calls gatewayName session st
                  (StartNew options) eq_refl)
      as Hcalls. cbv zeta in Hcalls. destruct Hcalls as (-> & -> & ->).
    cbn. rewrite app_nil_r. split; [done |]. split; [done |].
    split; [done |]. by apply onSessionChosen_completed.
Qed.

Lemma filter_all {A} (P : A → Prop) `{!∀ x, Decision (P x)} (l : list A) :
  Forall P l → filter P l = l.
Proof.
  induction 1 as [|x l Hx _ IH]; [done |].
  by rewrite filter_cons_True, IH.
Qed.

(** The state after a successful listing, and what the list then shows. *)
Lemma resolveSessions_listed gatewayInfo serverSettings specModels st
    keep discovered sessionModels :
  _kernelSpecFilter st = Some keep →
  specsFor env st serverSettings specModels = inr discovered →
  Session_listRunning env (listRunning_calls (calls st)) serverSettings
    = inr sessionModels →
  let kernelSpecs :=
    filter (λ spec, keep spec) (Kernel.kernelspecs discovered) in
  let props :=
    sessionChoices env serverSettings kernelSpecs sessionModels in
  let st' :=
    presenting props (OnSession (gateway_name gatewayInfo))
      (listing serverSettings (resolving serverSettings specModels st)) in
  resolveSessions env gatewayInfo serverSettings specModels st
    = (Normal tt, st')
  ∧ last (updates (trace st')) = Some props.
Proof.
  intros Hkeep Hspecs Hlist. cbv zeta.
  rewrite (resolveSessions_listing env _ _ _ _ keep discovered) by done.
  cbv zeta. rewrite Hlist. split; [done |].
  unfold presenting. cbn [trace with_trace]. rewrite updates_app.
  apply last_snoc.
Qed.

(** X15: the session list at its edges.  The list always starts with the
    new-session entry and never has more than one entry per listed session
    besides; with no running session it is the new-session entry alone; when
    no kernel spec passes the document's filter, it offers exactly the
    sessions without an identifiable kernel; and when every session is on a
    permitted kernel, none is left out. *)
Theorem session_list_edges gatewayInfo serverSettings specModels st
    keep discovered sessionModels :
  _kernelSpecFilter st = Some keep →
  specsFor env st serverSettings specModels = inr discovered →
  Session_listRunning env (listRunning_calls (calls st)) serverSettings
    = inr sessionModels →
  let kernelSpecs :=
    filter (λ spec, keep spec) (Kernel.kernelspecs discovered) in
  let kernelNames := map Kernel.name kernelSpecs in
  let st' :=
    snd (resolveSessions env gatewayInfo serverSettings specModels st) in
  ∃ rest,
    (last (updates (trace st')) ≫= items)
    = Some (SessionItem (newSession serverSettings kernelSpecs) :: rest)
    ∧ (length rest ≤ length sessionModels)%nat
    ∧ (sessionModels = [] → rest = [])
    ∧ (kernelSpecs = [] →
         rest =
           map (sessionItem env serverSettings)
             (filter (λ model, identifiable_kernel model = None)
                sessionModels))
    ∧ (Forall (offered kernelNames) sessionModels →
         rest = map (sessionItem env serverSettings) sessionModels).
Proof.
  intros Hkeep Hspecs Hlist. cbv zeta.
  destruct (resolveSessions_listed gatewayInfo serverSettings specModels st
              keep discovered sessionModels Hkeep Hspecs Hlist)
    as [Hrun Hlast].
  rewrite Hrun. cbn [snd]. rewrite Hlast. clear Hrun Hlast.
  eexists. split; [reflexivity |].
  rewrite length_map. split; [apply length_filter |].
  split; [by intros -> |]. split.
  - intros ->. f_equal. apply list_filter_iff. intros model.
    unfold offered. destruct (identifiable_kernel model); [| done].
    cbn. split; [by intros ?%elem_of_nil | done].
  - intros Hall. by rewrite filter_all.
Qed.
(** What the new-session branch does for any entry without a model. *)
Lemma onSessionWitouthModel_run gatewayName sessionInfo st :
  onSessionWitouthModel gatewayName sessionInfo st =
    (Normal tt,
     presenting
       (kernelChoices (info_options sessionInfo) (_path st)
          (default [] (info_kernelSpecs sessionInfo)))
       (StartSession gatewayName)
       (if truthy (info_name sessionInfo) then st
        else
          with_trace
            (trace st
             ++ [Update (mkProps (Some []) Null Null Absent
                           (Text "This gateway does not support listing sessions"))])
            st)).
Proof.
  destruct st as [f p oc ocl focused pan o c t].
  unfold onSessionWitouthModel. by destruct (truthy (info_name sessionInfo)).
Qed.

(** X16: from an entry without a model to a started session.  [onSession]
    offers one item per kernel spec of the entry and installs
    [startSession] for the gateway; an entry without a name first sends the
    list the message that the gateway does not list sessions.  Each offered
    item carries the settings of the entry, the name of its kernel spec and
    the path the picker drew when it was opened, and confirming it starts
    exactly one session, with those options, and connects to none. *)
Theorem new_session_started gatewayName sessionInfo name options st :
  info_model sessionInfo = None →
  let kernelSpecs := default [] (info_kernelSpecs sessionInfo) in
  let presented := onSession env gatewayName sessionInfo st in
  let st1 := snd presented in
  KernelSpecItem name options
    ∈ default [] (last (updates (trace st1)) ≫= items) →
  let result := startSession env gatewayName options st1 in
  let st2 := snd result in
  fst presented = Normal tt
  ∧ onConfirmed st1 = StartSession gatewayName
  ∧ updates (trace st1) =
      updates (trace st)
      ++ (if truthy (info_name sessionInfo) then []
          else [mkProps (Some []) Null Null Absent
                  (Text "This gateway does not support listing sessions")])
      ++ [kernelChoices (info_options sessionInfo) (_path st) kernelSpecs]
  ∧ (∃ spec,
       spec ∈ kernelSpecs
       ∧ name = Kernel.display_name spec
       ∧ options =
           mkStart (info_options sessionInfo) (Kernel.name spec) (_path st))
  ∧ starts (trace st2) = starts (trace st) ++ [options]
  ∧ connections (trace st2) = connections (trace st)
  ∧ match Session_startNew env options with
    | inl e => fst result = Thrown e ∧ panel st2 = panel st
    | inr session => completed env gatewayName session st1 result
    end.
Proof.
  intros Hmodel. cbv zeta. unfold onSession. rewrite Hmodel.
  rewrite onSessionWitouthModel_run. cbn [fst snd].
  set (st0 := if truthy (info_name sessionInfo) then st else _).
  assert (Hst0 :
    updates (trace st0) =
      updates (trace st)
      ++ (if truthy (info_name sessionInfo) then []
          else [mkProps (Some []) Null Null Absent
                  (Text "This gateway does not support listing sessions")])
    ∧ starts (trace st0) = starts (trace st)
    ∧ connections (trace st0) = connections (trace st)
    ∧ panel st0 = panel st).
  { subst st0. destruct (truthy (info_name sessionInfo));
      cbn [trace with_trace panel].
    - by rewrite app_nil_r.
    - rewrite updates_app, starts_app, connections_app. cbn.
      by rewrite !app_nil_r. }
  destruct Hst0 as (Hu0 & Hs0 & Hc0 & Hp0). clearbody st0.
  set (props := kernelChoices _ _ _).
  assert (Hst1 :
    updates (trace (presenting props (StartSession gatewayName) st0)) =
      updates (trace st0) ++ [props]
    ∧ starts (trace (presenting props (StartSession gatewayName) st0)) =
        starts (trace st0)
    ∧ connections (trace (presenting props (StartSession gatewayName) st0)) =
        connections (trace st0)
    ∧ panel (presenting props (StartSession gatewayName) st0) = panel st0).
  { unfold presenting. cbn [trace with_trace panel with_onConfirmed].
    rewrite updates_app, starts_app, connections_app. cbn.
    by rewrite !app_nil_r. }
  destruct Hst1 as (Hu1 & Hs1 & Hc1 & Hp1).
  rewrite Hu1, last_snoc. subst props.
  cbn [mbind option_bind items kernelChoices default].
  intros Hitem. apply list_elem_of_fmap in Hitem as (spec & [= -> ->] & Hspec).
  split; [done |]. split; [done |].
  split; [by rewrite Hu0, <- app_assoc |].
  split; [by exists spec |].
  set (st1 := presenting _ _ st0) in *. clearbody st1.
  set (options := mkStart _ _ _).
  rewrite startSession_run. cbv zeta.
  destruct (Session_startNew env options) as [e|session].
  - cbn [fst snd trace with_trace panel].
    rewrite connections_app, starts_app. cbn.
    by rewrite !app_nil_r, Hs1, Hs0, Hc1, Hc0, Hp1, Hp0.
  - pose proof (onSessionChosen_calls gatewayName session st1
                  (StartNew options) eq_refl) as Hcalls.
    cbv zeta in Hcalls. destruct Hcalls as (-> & -> & _).
    cbn. rewrite app_nil_r, Hs1, Hs0, Hc1, Hc0.
    split; [done |]. split; [done |].
    by apply onSessionChosen_completed.
Qed.
End Sessions.

(** ** The origin and host the cookie strategy sends *)

Section Masquerade.
Variable env : Env.


End Masquerade.

(** * The further properties at the sample collaborators *)

(** A picker whose list is open keeps the account of its panel when a
    session is completed and the list closed. *)
Lemma panels_balanced_witness :
  let keep := λ spec, Kernel.name spec =? "py" in
  let picker :=
    snd (toggle Sample.serving keep (constructed Sample.serving)) in
  let session := Sample.started (mkStart Sample.settings "py" None) in
  balanced picker
  ∧ panel picker = true
  ∧ balanced (snd (onGateway Sample.serving Sample.gateway picker))
  ∧ balanced (snd (onSessionChosen Sample.serving "lab" session picker)).
Proof.
  assert (Hpicker :
    balanced
      (snd (toggle Sample.serving (λ spec, Kernel.name spec =? "py")
              (constructed Sample.serving)))) by reflexivity.
  split; [exact Hpicker |]. split; [reflexivity |].
  destruct (panels_balanced Sample.serving
              (λ spec, Kernel.name spec =? "py") Sample.gateway "lab"
              (newSession Sample.settings [Sample.py])
              (mkStart Sample.settings "py" None)
              (Sample.started (mkStart Sample.settings "py" None))
              "Token:"
              (snd (toggle Sample.serving (λ spec, Kernel.name spec =? "py")
                      (constructed Sample.serving)))
              Hpicker)
    as (_ & _ & _ & Hgateway & _ & _ & Hchosen).
  split; [exact Hgateway | exact Hchosen].
Defined.

(** A cookie and a token typed one after the other, in either order. *)
Lemma strategies_compose_witness :
  let picker := Sample.toggled Sample.typing in
  let cookie_first :=
    gatewayOptions
      (snd ((run promptForCookie Sample.typing;
             promptForToken Sample.typing) picker)) in
  let token_first :=
    gatewayOptions
      (snd ((run promptForToken Sample.typing;
             promptForCookie Sample.typing) picker)) in
  user_input Sample.typing 0 "Cookie:" = Submit "sid=1"
  ∧ user_input Sample.typing 1 "Token:" = Submit "secret"
  ∧ token_first = cookie_first
  ∧ token cookie_first = Some "secret"
  ∧ headers cookie_first !! "Cookie" = Some "sid=1"
  ∧ wsFactory cookie_first = Some (SameOriginWs "sid=1").
Proof.
  split; [reflexivity |]. split; [reflexivity |].
  destruct (strategies_compose Sample.typing "sid=1" "secret"
              (Sample.toggled Sample.typing)
              ltac:(discriminate) ltac:(discriminate)
              eq_refl eq_refl eq_refl eq_refl)
    as (_ & Hsame & Htoken & Hcookie & _ & Hws).
  cbv zeta. split; [exact Hsame |]. split; [exact Htoken |].
  split; [exact Hcookie | exact Hws].
Defined.

(** Two cookies typed one after the other: nothing of the first is left. *)
Lemma later_credential_wins_witness :
  let picker := Sample.toggled Sample.retyping in
  let o' :=
    gatewayOptions
      (snd ((run promptForCookie Sample.retyping;
             promptForCookie Sample.retyping) picker)) in
  user_input Sample.retyping 0 "Cookie:" = Submit "old"
  ∧ user_input Sample.retyping 1 "Cookie:" = Submit "new"
  ∧ headers o' !! "Cookie" = Some "new"
  ∧ wsFactory o' = Some (SameOriginWs "new")
  ∧ gatewayOptions
      (snd ((run promptForToken Sample.retyping;
             promptForToken Sample.retyping) picker))
    = with_token (Some "new") (gatewayOptions picker).
Proof.
  split; [reflexivity |]. split; [reflexivity |].
  destruct (later_credential_wins Sample.retyping "old" "new"
              (Sample.toggled Sample.retyping)
              ltac:(discriminate) ltac:(discriminate))
    as (Hcookies & Htokens).
  destruct (Hcookies eq_refl eq_refl) as (_ & Hheader & Hws).
  cbv zeta. split; [exact Hheader |]. split; [exact Hws |].
  exact (Htokens eq_refl eq_refl).
Defined.

(** One gateway is configured and the document is saved. *)
Lemma toggle_opens_chooser_witness :
  let keep := λ spec, Kernel.name spec =? "py" in
  Config_gateways Sample.busy = Some [Sample.gateway]
  ∧ ∃ st',
      toggle Sample.busy keep (constructed Sample.busy) = (Normal tt, st')
      ∧ updates (trace st') =
          [mkProps (Some [GatewayItem Sample.gateway])
             (Text "Select a gateway") Null (Text "No gateways available")
             Absent]
      ∧ onConfirmed st' = OnGateway
      ∧ _path st' = Some "/home/me/a.py-0b3c".
Proof.
  split; [reflexivity |].
  destruct (toggle_opens_chooser Sample.busy
              (λ spec, Kernel.name spec =? "py")
              (constructed Sample.busy) Sample.gateway [] eq_refl)
    as (st' & Hrun & Hupdates & _ & Hhandler & _ & _ & Hpath & _).
  exists st'. split; [exact Hrun |]. split; [exact Hupdates |].
  split; [exact Hhandler | exact Hpath].
Defined.

(** The gateway answers the first discovery call. *)
Lemma first_discovery_succeeds_witness :
  let picker := Sample.toggled Sample.busy in
  let st' := snd (onGateway Sample.busy Sample.gateway picker) in
  Kernel_getSpecs Sample.busy 0 Sample.settings = inr Sample.specs
  ∧ rounds (trace st') = 0
  ∧ discoveries (trace st') = [Sample.settings]
  ∧ xhrFactory (gatewayOptions st') = Some DefaultXhr
  ∧ wsFactory (gatewayOptions st') = Some DefaultWs.
Proof.
  split; [reflexivity |].
  destruct (first_discovery_succeeds Sample.busy Sample.gateway
              (Sample.toggled Sample.busy) Sample.specs eq_refl)
    as (_ & Hrounds & _ & Hcalls & _ & _ & _ & _ & _ & _ & Hxhr & Hws).
  cbv zeta. split; [exact Hrounds |]. split; [exact Hcalls |].
  split; [exact Hxhr | exact Hws].
Defined.

(** No kernel spec passes the filter of the document: of the three listed
    sessions, the one without a kernel is offered. *)
Lemma session_list_edges_witness :
  let picker := with_filter (Some (λ _, false)) (Sample.toggled Sample.busy) in
  let st' :=
    snd (resolveSessions Sample.busy Sample.gateway Sample.settings
           (Some Sample.specs) picker) in
  Session_listRunning Sample.busy 0 Sample.settings = inr Sample.sessions
  ∧ (last (updates (trace st')) ≫= items)
    = Some [SessionItem (newSession Sample.settings []);
            sessionItem Sample.busy Sample.settings (Sample.running "c" None)].
Proof.
  split; [reflexivity |].
  destruct (session_list_edges Sample.busy Sample.gateway Sample.settings
              (Some Sample.specs)
              (with_filter (Some (λ _, false)) (Sample.toggled Sample.busy))
              (λ _, false) Sample.specs Sample.sessions
              eq_refl eq_refl eq_refl)
    as (rest & Hlist & _ & _ & Hnone & _).
  cbv zeta. rewrite Hlist, (Hnone eq_refl). reflexivity.
Defined.

(** The new-session entry of the sample gateway with the kernel spec [py]:
    confirming the offered item starts a session on [py] at the picker's
    path, and its kernel is handed over under the gateway's name. *)
Lemma new_session_started_witness :
  let picker := Sample.toggled Sample.serving in
  let options := mkStart Sample.settings "py" (Some "/home/me/a.py-0b3c") in
  let st1 :=
    snd (onSession Sample.serving "lab"
           (newSession Sample.settings [Sample.py]) picker) in
  let st2 := snd (startSession Sample.serving "lab" options st1) in
  KernelSpecItem "py" options
    ∈ default [] (last (updates (trace st1)) ≫= items)
  ∧ onConfirmed st1 = StartSession "lab"
  ∧ starts (trace st2) = [options]
  ∧ connections (trace st2) = []
  ∧ emitted (trace st2) =
      [mkKernel "lab" Sample.py "source.python" (Sample.started options)].
Proof.
  assert (Hitem :
    KernelSpecItem "py"
      (mkStart Sample.settings "py" (Some "/home/me/a.py-0b3c"))
    ∈ default []
        (last (updates (trace
           (snd (onSession Sample.serving "lab"
                   (newSession Sample.settings [Sample.py])
                   (Sample.toggled Sample.serving))))) ≫= items)).
  { vm_compute. constructor. }
  split; [exact Hitem |].
  destruct (new_session_started Sample.serving "lab"
              (newSession Sample.settings [Sample.py]) "py"
              (mkStart Sample.settings "py" (Some "/home/me/a.py-0b3c"))
              (Sample.toggled Sample.serving) eq_refl Hitem)
    as (_ & Hhandler & _ & _ & Hstarts & Hconnections & Hend).
  cbv zeta. split; [exact Hhandler |]. split; [exact Hstarts |].
  split; [exact Hconnections |].
  destruct Hend as (_ & _ & _ & Hemitted). exact Hemitted.
Defined.

